(** * pathfinder: the active-path / active-folder tracker of [src/extension.ts]

    The extension subscribes to five host signals and, on each of them,
    recomputes an "active path" and/or an "active folder" string and
    overwrites one of two files under [/tmp].  This development embeds
    [resolveActivePath], [getFolder], [tryWrite] and the callbacks that
    [activate] registers, and states the properties of the written
    specification over that embedding.

    Modelling choices, all visible in the definitions below:
    - values the source reads through the host's typed API are records;
      a member read with [?.] or tested for truthiness is an [option];
    - the tab input (cast to [any] in the source) and the tab label
      (read through [as any]) are dynamic JavaScript values, [JsVal];
    - an expression evaluates to [Ok v] or [Throw e]; a statement list
      inside a function completes with [Ok None] (fell through),
      [Ok (Some v)] (executed [return v]) or [Throw e];
    - the two files live in a finite map from path to content, next to
      the faults of the file system: the paths on which a write fails, and
      how far such a write gets before it fails. *)

From Stdlib Require Import String Ascii List ZArith.
From stdpp Require Import base option gmap strings list.

Open Scope string_scope.

(** ** JavaScript values and evaluation results *)

Module Js.

(** What reading a property does: hand out a value, or raise (an accessor
    property whose getter throws, a revoked proxy, ...). *)
Inductive Slot (V : Type) : Type :=
| Data (v : V)
| Raises (e : V).
Arguments Data {V} v.
Arguments Raises {V} e.

(** Numbers are kept as integers plus NaN: the source only ever tests a
    number for truthiness.  [JBytes] stands for a Buffer, TypedArray or
    DataView, by the bytes it holds.  There are no function values, hence
    no object with a [toString] of its own. *)
#[warnings="-register-all"] Inductive JsVal : Type :=
| JUndefined
| JNull
| JBool (b : bool)
| JNum (n : Z)
| JNaN
| JStr (s : string)
| JBytes (b : string)
| JObj (props : list (string * Slot JsVal)).

Inductive Res (A : Type) : Type :=
| Ok (a : A)
| Throw (e : JsVal).
Arguments Ok {A} a.
Arguments Throw {A} e.

Definition bind {A B : Type} (r : Res A) (k : A -> Res B) : Res B :=
  match r with
  | Ok a => k a
  | Throw e => Throw e
  end.

Definition typeError : JsVal := JStr "TypeError".

(** ToBoolean. *)
Definition truthy (v : JsVal) : bool :=
  match v with
  | JUndefined | JNull | JNaN => false
  | JBool b => b
  | JNum n => negb (n =? 0)%Z
  | JStr s => negb (String.eqb s "")
  | JBytes _ => true
  | JObj _ => true
  end.

(** [typeof v === 'string'] *)
Definition isString (v : JsVal) : bool :=
  match v with
  | JStr _ => true
  | _ => false
  end.

Fixpoint lookupProp (k : string) (ps : list (string * Slot JsVal))
  : option (Slot JsVal) :=
  match ps with
  | [] => None
  | (k', s) :: rest => if String.eqb k k' then Some s else lookupProp k rest
  end.

(** [v.k].  Reading a member of [undefined] or [null] is a TypeError; a
    primitive has none of the members the source asks for; an object
    answers from its slots, a missing member being [undefined]. *)
Definition get (v : JsVal) (k : string) : Res JsVal :=
  match v with
  | JUndefined | JNull => Throw typeError
  | JObj ps =>
      match lookupProp k ps with
      | Some (Data x) => Ok x
      | Some (Raises e) => Throw e
      | None => Ok JUndefined
      end
  | _ => Ok JUndefined
  end.

(** [e.k] for an expression [e] that may itself throw. *)
Definition dot (e : Res JsVal) (k : string) : Res JsVal := bind e (fun v => get v k).

(** An expression used as a condition (ToBoolean of its value), and the
    test [typeof e === 'string']. *)
Definition toBool (e : Res JsVal) : Res bool := bind e (fun v => Ok (truthy v)).
Definition typeofIsString (e : Res JsVal) : Res bool := bind e (fun v => Ok (isString v)).

(** [a && b] in a condition: [b] is evaluated only when [a] is truthy. *)
Definition andAlso (a b : Res bool) : Res bool :=
  bind a (fun x => if x then b else Ok false).

(** [a || b] as a value. *)
Definition orElse (a b : JsVal) : JsVal := if truthy a then a else b.

(** [s.includes(sub)] *)
Definition includes (s sub : string) : bool :=
  match String.index 0 sub s with
  | Some _ => true
  | None => false
  end.

(** [o?.f] on a typed host value: absent stays absent. *)
Definition optChain {A B : Type} (o : option A) (f : A -> option B) : option B :=
  match o with
  | Some a => f a
  | None => None
  end.

(** Completion of a statement list inside a function body. *)
Definition Stmt : Type := Res (option JsVal).

Definition fallThrough : Stmt := Ok None.

(** [return e;] *)
Definition ret (e : Res JsVal) : Stmt := bind e (fun v => Ok (Some v)).

(** [s1; s2] *)
Definition seq (s1 s2 : Stmt) : Stmt :=
  match s1 with
  | Ok None => s2
  | _ => s1
  end.

(** [if (c) { body }] *)
Definition when (c : Res bool) (body : Stmt) : Stmt :=
  bind c (fun b => if b then body else fallThrough).

(** [try { body } catch (e) { handler e }] *)
Definition tryCatch {A : Type} (body : Res A) (handler : JsVal -> Res A) : Res A :=
  match body with
  | Throw e => handler e
  | _ => body
  end.

(** Result of calling a function with this body. *)
Definition call (body : Stmt) : Res JsVal :=
  bind body (fun c => match c with Some v => Ok v | None => Ok JUndefined end).

End Js.

Import Js.

Notation "x <- e ;; k" := (Js.bind e (fun x => k))
  (at level 90, e at next level, right associativity).
Notation "s1 ;;; s2" := (Js.seq s1 s2) (at level 65, right associativity).
Notation "e @. k" := (Js.dot e k) (at level 25, left associativity).
Notation "o ?. f" := (Js.optChain o f) (at level 25, left associativity).
Notation "a 'AND' b" := (Js.andAlso a b) (at level 42, right associativity).

(** ** The host: what the extension reads from [vscode.window] and
    [vscode.workspace] *)

Module Uri.
Record t : Type := { fsPath : string }.
End Uri.

Module TextDocument.
(** read as [textEditor?.document?.uri] *)
Record t : Type := { uri : option Uri.t }.
End TextDocument.

Module TextEditor.
Record t : Type := { document : option TextDocument.t }.
End TextEditor.

Module Tab.
(** [input] is cast to [any], [label] is read through [as any]. *)
Record t : Type := { input : JsVal; label : JsVal }.
End Tab.

Module TabGroup.
Record t : Type := { activeTab : option Tab.t }.
End TabGroup.

Module WorkspaceFolder.
Record t : Type := { uri : Uri.t }.
End WorkspaceFolder.

Record Host : Type := {
  activeTextEditor : option TextEditor.t;      (* vscode.window.activeTextEditor *)
  activeTabGroup : option TabGroup.t;          (* vscode.window.tabGroups.activeTabGroup *)
  workspaceFolders : option (list WorkspaceFolder.t)  (* vscode.workspace.workspaceFolders *)
}.

(** ** The file system and the diagnostic console *)

Record FileSystem : Type := {
  files : gmap string string;   (* path to content *)
  denied : gset string;         (* paths on which a write fails *)
  partial : gmap string nat     (* for such a path: the bytes that reach the file
                                   before the failure; absent when the failure
                                   comes before the file is opened *)
}.

Definition setFiles (f : FileSystem) (m : gmap string string) : FileSystem :=
  {| files := m; denied := denied f; partial := partial f |}.

(** The bytes [fs.writeFileSync] writes for its [data] argument: a string
    or a binary view; anything else is rejected. *)
Definition bytesOf (data : JsVal) : option string :=
  match data with
  | JStr s => Some s
  | JBytes b => Some b
  | _ => None
  end.

(** [fs.writeFileSync(dest, data)] with the default flag ['w'], the part of
    Node the extension relies on, as the file system it leaves and the
    result of the call.  The data argument is validated first.  Then the
    file is opened: a failure here (permission, missing directory) leaves
    the file as it was.  Opening truncates or creates the file, the bytes
    are written and the file is closed: a failure here (disk full) leaves
    the file with the bytes written so far, none at worst.  An accepted
    write replaces the whole content. *)
Definition writeFileSync (dest : string) (data : JsVal) (fs : FileSystem)
  : FileSystem * Res unit :=
  match bytesOf data with
  | Some s =>
      if decide (dest ∈ denied fs) then
        match partial fs !! dest with
        | None => (fs, Throw (JStr "EACCES"))
        | Some n =>
            (setFiles fs (<[dest := String.substring 0 n s]> (files fs)),
             Throw (JStr "ENOSPC"))
        end
      else (setFiles fs (<[dest := s]> (files fs)), Ok tt)
  | None => (fs, Throw (JStr "ERR_INVALID_ARG_TYPE"))
  end.

Definition readFile (fs : FileSystem) (p : string) : option string := files fs !! p.

Record World : Type := {
  host : Host;
  fs : FileSystem;
  console : list (string * JsVal)   (* console.error(message, err) calls, oldest first *)
}.

Definition setFs (w : World) (f : FileSystem) : World :=
  {| host := host w; fs := f; console := console w |}.

Definition consoleError (msg : string) (err : JsVal) (w : World) : World :=
  {| host := host w; fs := fs w; console := console w ++ [(msg, err)] |}.

(** ** The extension *)

(** [path.join] on two plain segments. *)
Definition path_join (dir name : string) : string := dir +:+ "/" +:+ name.

Definition basePath : string := "/tmp".
Definition editorPath : string := path_join basePath "editor_path.txt".
Definition folderPath : string := path_join basePath "folder_path.txt".

(** [function tryWrite(destPath, content)] *)
Definition tryWrite (destPath : string) (content : JsVal) (w : World) : Res World :=
  let (f, result) := writeFileSync destPath (orElse content (JStr "")) (fs w) in
  tryCatch
    (_ <- result ;; Ok (setFs w f))
    (fun err => Ok (consoleError "Failed to write to file:" err (setFs w f))).

(** [function getFolder()] *)
Definition getFolder (h : Host) : Res JsVal :=
  match workspaceFolders h with
  | Some folders =>
      if (0 <? length folders)%nat then
        match folders !! 0%nat with
        | Some f => Ok (JStr (Uri.fsPath (WorkspaceFolder.uri f)))
        | None => Throw typeError
        end
      else Ok (JStr "~")
  | None => Ok (JStr "~")
  end.

(** The statements of [resolveActivePath], one definition per [if]. *)

(** [if (textEditor?.document?.uri) return textEditor.document.uri.fsPath;] *)
Definition editorStep (h : Host) : Stmt :=
  match activeTextEditor h ?. TextEditor.document ?. TextDocument.uri with
  | Some u => ret (Ok (JStr (Uri.fsPath u)))
  | None => fallThrough
  end.

(** [if (input.uri && typeof input.uri.fsPath === 'string') return input.uri.fsPath;] *)
Definition probeDirectUri (input : JsVal) : Stmt :=
  when (toBool (Ok input @. "uri")
        AND typeofIsString (Ok input @. "uri" @. "fsPath"))
       (ret (Ok input @. "uri" @. "fsPath")).

(** [if (input.resource && input.resource.uri &&
        typeof input.resource.uri.fsPath === 'string')
      return input.resource.uri.fsPath;] *)
Definition probeResourceUri (input : JsVal) : Stmt :=
  when (toBool (Ok input @. "resource")
        AND toBool (Ok input @. "resource" @. "uri")
        AND typeofIsString (Ok input @. "resource" @. "uri" @. "fsPath"))
       (ret (Ok input @. "resource" @. "uri" @. "fsPath")).

(** [if (input.options && input.options.uri && input.options.uri.fsPath)
      return input.options.uri.fsPath;] *)
Definition probeOptionsUri (input : JsVal) : Stmt :=
  when (toBool (Ok input @. "options")
        AND toBool (Ok input @. "options" @. "uri")
        AND toBool (Ok input @. "options" @. "uri" @. "fsPath"))
       (ret (Ok input @. "options" @. "uri" @. "fsPath")).

(** [if (typeof label === 'string') { if (lbl.includes('/') || lbl.includes('\\')) return lbl; }] *)
Definition labelHeuristic (tab : Tab.t) : Stmt :=
  match Tab.label tab with
  | JStr lbl =>
      if includes lbl "/" || includes lbl "\" then ret (Ok (JStr lbl)) else fallThrough
  | _ => fallThrough
  end.

(** The body of the [try] block. *)
Definition tabBlock (h : Host) : Stmt :=
  match activeTabGroup h ?. TabGroup.activeTab with
  | Some activeTab =>
      if truthy (Tab.input activeTab) then
        let input := Tab.input activeTab in
        probeDirectUri input ;;;
        probeResourceUri input ;;;
        probeOptionsUri input ;;;
        labelHeuristic activeTab
      else fallThrough
  | None => fallThrough
  end.

(** [function resolveActivePath()] *)
Definition resolveActivePath (h : Host) : Res JsVal :=
  call (editorStep h ;;;
        tryCatch (tabBlock h) (fun _ => fallThrough) ;;;
        ret (getFolder h)).

(** The callbacks [activate] registers, one per host signal. *)
Inductive Event : Type :=
| ActiveTextEditorChanged
| TabsChanged
| TabGroupsChanged
| WorkspaceFoldersChanged
| WindowStateChanged.

Definition writeActivePath (w : World) : Res World :=
  p <- resolveActivePath (host w) ;; tryWrite editorPath p w.

Definition writeActiveFolder (w : World) : Res World :=
  p <- getFolder (host w) ;; tryWrite folderPath p w.

Definition writeBoth (w : World) : Res World :=
  w1 <- writeActivePath w ;; writeActiveFolder w1.

Definition callback (ev : Event) : World -> Res World :=
  match ev with
  | ActiveTextEditorChanged => writeActivePath
  | TabsChanged => writeBoth
  | TabGroupsChanged => writeBoth
  | WorkspaceFoldersChanged => writeActiveFolder
  | WindowStateChanged => writeActiveFolder
  end.

(** [activate()]: the subscriptions are [callback]; what is left to run is
    the initial write of both files. *)
Definition activate (w : World) : Res World := writeBoth w.

(** The events whose callback writes the active-path file, and those whose
    callback writes the active-folder file. *)
Definition writesActivePath (ev : Event) : bool :=
  match ev with
  | ActiveTextEditorChanged | TabsChanged | TabGroupsChanged => true
  | _ => false
  end.

Definition writesActiveFolder (ev : Event) : bool :=
  match ev with
  | ActiveTextEditorChanged => false
  | _ => true
  end.

(** ** Vocabulary of the specification, over the statements above *)

(** A step "yields nothing" when it falls through. *)
Definition yieldsNothing (s : Stmt) : Prop := s = fallThrough.

(** A step "yields [v]" when it executes [return v]. *)
Definition yields (s : Stmt) (v : JsVal) : Prop := s = Ok (Some v).

(** The active tab of the active tab group, if any. *)
Definition activeTabOf (h : Host) : option Tab.t :=
  activeTabGroup h ?. TabGroup.activeTab.

(** The tab steps yield nothing: whatever the active tab is, each of the
    statements the source runs on it falls through. *)
Definition tabYieldsNothing (h : Host) : Prop :=
  forall tab, activeTabOf h = Some tab ->
    truthy (Tab.input tab) = true ->
    yieldsNothing (probeDirectUri (Tab.input tab)) /\
    yieldsNothing (probeResourceUri (Tab.input tab)) /\
    yieldsNothing (probeOptionsUri (Tab.input tab)) /\
    yieldsNothing (labelHeuristic tab).

(** A probe passes over the input, in terms of the members it reads: the
    direct probe when [input.uri] is falsy or its [fsPath] is not a string,
    the nested probe when [input.resource] is falsy, or its [uri] is, or the
    [fsPath] of that is not a string. *)
Definition passesOverDirect (input : JsVal) : Prop :=
  exists u, get input "uri" = Ok u /\
    (truthy u = false \/ exists p, get u "fsPath" = Ok p /\ isString p = false).

Definition passesOverNested (input : JsVal) : Prop :=
  exists r, get input "resource" = Ok r /\
    (truthy r = false \/
     exists u, get r "uri" = Ok u /\
       (truthy u = false \/ exists p, get u "fsPath" = Ok p /\ isString p = false)).

(** The same host with other tabs, and with no active editor. *)
Definition withTabs (h : Host) (g : option TabGroup.t) : Host :=
  {| activeTextEditor := activeTextEditor h;
     activeTabGroup := g;
     workspaceFolders := workspaceFolders h |}.

Definition withoutEditor (h : Host) : Host :=
  {| activeTextEditor := None;
     activeTabGroup := activeTabGroup h;
     workspaceFolders := workspaceFolders h |}.

(** What [tryWrite dest content] leaves in the file [dest], [None] when it
    leaves the file as it was: the content when the write is accepted; the
    part written so far when the write fails after the file was opened;
    nothing new when it fails before that or the content is no data. *)
Definition leftover (dest : string) (content : JsVal) (f : FileSystem) : option string :=
  match bytesOf (orElse content (JStr "")) with
  | Some s =>
      if decide (dest ∈ denied f) then
        match partial f !! dest with
        | Some n => Some (String.substring 0 n s)
        | None => None
        end
      else Some s
  | None => None
  end.

(** The files after a write that left [o] in [dest]. *)
Definition store (dest : string) (o : option string) (m : gmap string string)
  : gmap string string :=
  match o with
  | Some s => <[dest := s]> m
  | None => m
  end.

(** Whether [tryWrite dest content] ends in the [catch] branch. *)
Definition writeRefused (dest : string) (content : Res JsVal) (f : FileSystem) : bool :=
  match content with
  | Ok c =>
      match (writeFileSync dest (orElse c (JStr "")) f).2 with
      | Ok _ => false
      | Throw _ => true
      end
  | Throw _ => false
  end.

Definition refusals (b : bool) : nat := if b then 1 else 0.

(** How many of the writes a callback performs are refused. *)
Definition failedWrites (ev : Event) (w : World) : nat :=
  refusals (writesActivePath ev &&
            writeRefused editorPath (resolveActivePath (host w)) (fs w)) +
  refusals (writesActiveFolder ev &&
            writeRefused folderPath (getFolder (host w)) (fs w)).

(** Console entries written by [tryWrite]'s [catch] branch. *)
Definition isWriteFailure (en : string * JsVal) : Prop := en.1 = "Failed to write to file:".

(** What a write (or a callback) did to the world: the host and the faults
    of the file system are untouched, the files are [m], the console grew by
    [n] write-failure entries. *)
Definition effect (w w' : World) (m : gmap string string) (n : nat) : Prop :=
  host w' = host w /\
  denied (fs w') = denied (fs w) /\
  partial (fs w') = partial (fs w) /\
  files (fs w') = m /\
  exists entries, console w' = (console w ++ entries)%list /\
                  length entries = n /\
                  Forall isWriteFailure entries.

(** ** The specification's reading of the waterfall

    The definitions of this part follow the words of the specification, not
    the source; the theorems below compare them with [resolveActivePath]. *)

(** "Present, non-empty path": a member read that gives a non-empty string. *)
Definition presentNonEmpty (e : Res JsVal) : option string :=
  match e with
  | Ok (JStr s) => if String.eqb s "" then None else Some s
  | _ => None
  end.

(** "Probe, in order, for a direct resource-path field, a nested resource
    object carrying one, an options-carried one; return the first present,
    non-empty path found." *)
Definition firstPresentNonEmpty (input : JsVal) : option string :=
  match presentNonEmpty (Ok input @. "uri" @. "fsPath") with
  | Some p => Some p
  | None =>
      match presentNonEmpty (Ok input @. "resource" @. "uri" @. "fsPath") with
      | Some p => Some p
      | None => presentNonEmpty (Ok input @. "options" @. "uri" @. "fsPath")
      end
  end.

(** "The tab carries no resolvable resource object": no probe of its input
    yields a value. *)
Definition noResolvableResource (tab : Tab.t) : Prop :=
  forall v, ~ yields (probeDirectUri (Tab.input tab)) v /\
            ~ yields (probeResourceUri (Tab.input tab)) v /\
            ~ yields (probeOptionsUri (Tab.input tab)) v.

(** "A thrown value from any single probing step is treated as no value
    from this step": every step under its own guard. *)
Definition guarded (s : Stmt) : Stmt := tryCatch s (fun _ => fallThrough).

Definition resolveStepwise (h : Host) : Res JsVal :=
  call (guarded (editorStep h) ;;;
        match activeTabOf h with
        | Some tab =>
            if truthy (Tab.input tab) then
              guarded (probeDirectUri (Tab.input tab)) ;;;
              guarded (probeResourceUri (Tab.input tab)) ;;;
              guarded (probeOptionsUri (Tab.input tab)) ;;;
              guarded (labelHeuristic tab)
            else fallThrough
        | None => fallThrough
        end ;;;
        ret (getFolder h)).

(** ** Sample host states *)

Module Sample.

Definition uriObject (path : string) : JsVal := JObj [("fsPath", Data (JStr path))].

Definition editorOn (path : string) : TextEditor.t :=
  {| TextEditor.document :=
       Some {| TextDocument.uri := Some {| Uri.fsPath := path |} |} |}.

Definition folder (path : string) : WorkspaceFolder.t :=
  {| WorkspaceFolder.uri := {| Uri.fsPath := path |} |}.

Definition oneTab (input label : JsVal) : option TabGroup.t :=
  Some {| TabGroup.activeTab := Some {| Tab.input := input; Tab.label := label |} |}.

(** An image tab: [{ uri: { fsPath: "/img/x.png" } }]. *)
Definition imageInput : JsVal := JObj [("uri", Data (uriObject "/img/x.png"))].

(** A custom input that only has the nested shape. *)
Definition nestedInput : JsVal :=
  JObj [("resource", Data (JObj [("uri", Data (uriObject "/img/x.png"))]))].

(** A direct uri whose path is the empty string, next to a nested one. *)
Definition emptyDirectInput : JsVal :=
  JObj [("uri", Data (uriObject ""));
        ("resource", Data (JObj [("uri", Data (uriObject "/img/x.png"))]))].

(** A webview-like input: no resource at all. *)
Definition webviewInput : JsVal := JObj [("viewType", Data (JStr "markdown.preview"))].

(** An input whose [uri] accessor throws. *)
Definition throwingInput : JsVal := JObj [("uri", Raises (JStr "boom"))].

Definition emptyFs : FileSystem := {| files := ∅; denied := ∅; partial := ∅ |}.

Definition world (h : Host) : World := {| host := h; fs := emptyFs; console := [] |}.

(** Editor on [/a/b.txt] while an image tab is open. *)
Definition editorAndImage : Host :=
  {| activeTextEditor := Some (editorOn "/a/b.txt");
     activeTabGroup := oneTab imageInput (JStr "x.png");
     workspaceFolders := None |}.

(** An editor object without a document, next to an image tab. *)
Definition editorNoDocument : Host :=
  {| activeTextEditor := Some {| TextEditor.document := None |};
     activeTabGroup := oneTab imageInput (JStr "x.png");
     workspaceFolders := None |}.

Definition nestedOnly : Host :=
  {| activeTextEditor := None;
     activeTabGroup := oneTab nestedInput (JStr "x.png");
     workspaceFolders := None |}.

Definition emptyDirect : Host :=
  {| activeTextEditor := None;
     activeTabGroup := oneTab emptyDirectInput (JStr "x.png");
     workspaceFolders := None |}.

(** A tab with a path-like label and an input without resource. *)
Definition labelledWebview : Host :=
  {| activeTextEditor := None;
     activeTabGroup := oneTab webviewInput (JStr "folder/readme.md");
     workspaceFolders := None |}.

(** A tab with a path-like label and no input at all. *)
Definition labelOnly : Host :=
  {| activeTextEditor := None;
     activeTabGroup := oneTab JUndefined (JStr "folder/readme.md");
     workspaceFolders := None |}.

(** A tab with a path-like label whose input throws when probed. *)
Definition labelledThrowing : Host :=
  {| activeTextEditor := None;
     activeTabGroup := oneTab throwingInput (JStr "folder/readme.md");
     workspaceFolders := None |}.

(** Nothing active, two workspace folders. *)
Definition twoFolders : Host :=
  {| activeTextEditor := None;
     activeTabGroup := None;
     workspaceFolders := Some [folder "/proj/a"; folder "/proj/b"] |}.

End Sample.

(** ** Sessions: the host changes its state and raises a signal

    The extension has no loop of its own: the host calls [activate] once and
    then the registered callback of each signal it raises.  A session is the
    list of those signals, each with the host state it is raised in. *)

Definition setHost (w : World) (h : Host) : World :=
  {| host := h; fs := fs w; console := console w |}.

Fixpoint run (steps : list (Host * Event)) (w : World) : Res World :=
  match steps with
  | [] => Ok w
  | (h, ev) :: rest => w' <- callback ev (setHost w h) ;; run rest w'
  end.

(** [export function deactivate() {}] *)
Definition deactivate (w : World) : Res World := Ok w.

(** The host state the last signal of a session was raised in. *)
Fixpoint lastHost (steps : list (Host * Event)) (h0 : Host) : Host :=
  match steps with
  | [] => h0
  | (h, _) :: rest => lastHost rest h
  end.

(** What one signal leaves in the file [dest] when its callback writes
    [dest]: the value computed by [value] when the write is accepted, the
    part of it written so far when the write fails after the file was
    opened; the previous content in every other case. *)
Definition afterSignal (dest : string) (writes : Event -> bool) (value : Host -> Res JsVal)
    (f : FileSystem) (h : Host) (ev : Event) (before : option string) : option string :=
  if writes ev then
    match value h with
    | Ok v =>
        match leftover dest v f with
        | Some s => Some s
        | None => before
        end
    | Throw _ => before
    end
  else before.

(** The content of [dest] after a session, computed for that file alone. *)
Fixpoint latest (dest : string) (writes : Event -> bool) (value : Host -> Res JsVal)
    (f : FileSystem) (steps : list (Host * Event)) (before : option string)
  : option string :=
  match steps with
  | [] => before
  | (h, ev) :: rest =>
      latest dest writes value f rest (afterSignal dest writes value f h ev before)
  end.

(** A value without accessor that throws, at any depth. *)
Fixpoint plain (v : JsVal) : bool :=
  match v with
  | JObj ps =>
      forallb (fun p => match snd p with
                        | Data x => plain x
                        | Raises _ => false
                        end) ps
  | _ => true
  end.

(** The characters of a label. *)
Definition hasChar (c : ascii) (s : string) : Prop := In c (list_ascii_of_string s).

(** ** More sample states *)

Module Sample2.

(** A custom input whose options carry a number where a path is expected. *)
Definition numericOptionsInput : JsVal :=
  JObj [("options", Data (JObj [("uri", Data (JObj [("fsPath", Data (JNum 42))]))]))].

Definition numericOptions : Host :=
  {| activeTextEditor := None;
     activeTabGroup := Sample.oneTab numericOptionsInput (JStr "custom");
     workspaceFolders := None |}.

(** A webview tab labelled with a bare file name. *)
Definition bareLabel : Host :=
  {| activeTextEditor := None;
     activeTabGroup := Sample.oneTab Sample.webviewInput (JStr "readme.md");
     workspaceFolders := Some [Sample.folder "/proj/a"] |}.

(** A file system that refuses to write the active-path file, which holds
    an older value, next to a file of somebody else. *)
Definition editorFileLocked : FileSystem :=
  {| files := {[ editorPath := "/old/path.txt"; "/tmp/notes.txt" := "keep" ]};
     denied := {[ editorPath ]};
     partial := ∅ |}.

Definition lockedWorld (h : Host) : World :=
  {| host := h; fs := editorFileLocked; console := [] |}.

(** The user opens an editor, switches to an image tab, then adds folders. *)
Definition browsing : list (Host * Event) :=
  [ (Sample.editorAndImage, ActiveTextEditorChanged);
    (Sample.nestedOnly, TabsChanged);
    (Sample.twoFolders, WorkspaceFoldersChanged) ].

(** A disk that fills up while the active-path file, which holds an older
    value, is being rewritten: the file is opened, nothing gets written. *)
Definition diskFull : FileSystem :=
  {| files := {[ editorPath := "/old/path.txt"; "/tmp/notes.txt" := "keep" ]};
     denied := {[ editorPath ]};
     partial := {[ editorPath := 0 ]} |}.

Definition diskFullWorld (h : Host) : World :=
  {| host := h; fs := diskFull; console := [] |}.

End Sample2.

(** ** Basic facts: evaluation *)

Section Evaluation.

Lemma orElse_string (s : string) : orElse (JStr s) (JStr "") = JStr s.
Proof.
  unfold orElse; simpl.
  destruct (String.eqb s "") eqn:E; simpl; [|reflexivity].
  apply String.eqb_eq in E. now subst.
Qed.

Lemma orElse_falsy (v : JsVal) : truthy v = false -> orElse v (JStr "") = JStr "".
Proof. intros H. unfold orElse. now rewrite H. Qed.

Lemma seq_fallThrough_l (s : Stmt) : fallThrough ;;; s = s.
Proof. reflexivity. Qed.

Lemma seq_yields (v : JsVal) (s : Stmt) : Ok (Some v) ;;; s = Ok (Some v).
Proof. reflexivity. Qed.

Lemma seq_throw (e : JsVal) (s : Stmt) : Throw e ;;; s = Throw e.
Proof. reflexivity. Qed.

Lemma getFolder_first (h : Host) (f : WorkspaceFolder.t) (rest : list WorkspaceFolder.t) :
  workspaceFolders h = Some (f :: rest) ->
  getFolder h = Ok (JStr (Uri.fsPath (WorkspaceFolder.uri f))).
Proof. intros H. unfold getFolder. now rewrite H. Qed.

Lemma getFolder_none (h : Host) :
  workspaceFolders h = None \/ workspaceFolders h = Some [] ->
  getFolder h = Ok (JStr "~").
Proof. intros [H|H]; unfold getFolder; now rewrite H. Qed.

(** [getFolder] never throws and always returns a string. *)
Lemma getFolder_total (h : Host) : exists s, getFolder h = Ok (JStr s).
Proof.
  destruct (workspaceFolders h) as [[|f rest]|] eqn:E.
  - exists "~". apply getFolder_none. now right.
  - eexists. eapply getFolder_first; eauto.
  - exists "~". apply getFolder_none. now left.
Qed.

Lemma editorStep_uri (h : Host) (ed : TextEditor.t) (doc : TextDocument.t) (u : Uri.t) :
  activeTextEditor h = Some ed ->
  TextEditor.document ed = Some doc ->
  TextDocument.uri doc = Some u ->
  editorStep h = Ok (Some (JStr (Uri.fsPath u))).
Proof. intros H1 H2 H3. unfold editorStep. rewrite H1; simpl. rewrite H2; simpl. now rewrite H3. Qed.

(** The editor step never throws. *)
Lemma editorStep_cases (h : Host) :
  editorStep h = fallThrough \/ exists s, editorStep h = Ok (Some (JStr s)).
Proof.
  unfold editorStep.
  destruct (activeTextEditor h ?. TextEditor.document ?. TextDocument.uri); simpl; eauto.
Qed.

Lemma resolve_editor (h : Host) (v : JsVal) :
  editorStep h = Ok (Some v) -> resolveActivePath h = Ok v.
Proof. intros H. unfold resolveActivePath. now rewrite H. Qed.

Lemma resolve_tab (h : Host) (v : JsVal) :
  editorStep h = fallThrough -> tabBlock h = Ok (Some v) -> resolveActivePath h = Ok v.
Proof. intros H1 H2. unfold resolveActivePath. rewrite H1, H2. reflexivity. Qed.

Lemma resolve_fallback (h : Host) :
  editorStep h = fallThrough ->
  (forall v, tabBlock h <> Ok (Some v)) ->
  resolveActivePath h = getFolder h.
Proof.
  intros H1 H2. unfold resolveActivePath. rewrite H1.
  destruct (getFolder_total h) as [s Hs]. rewrite Hs.
  destruct (tabBlock h) as [[v|]|e]; simpl; try reflexivity.
  now destruct (H2 v).
Qed.

(** [resolveActivePath] never throws. *)
Lemma resolveActivePath_total (h : Host) : exists v, resolveActivePath h = Ok v.
Proof.
  destruct (editorStep_cases h) as [H|[s H]].
  - destruct (tabBlock h) as [[v|]|e] eqn:E.
    + exists v. now apply resolve_tab.
    + destruct (getFolder_total h) as [s Hs]. exists (JStr s).
      rewrite resolve_fallback; auto. intros v; congruence.
    + destruct (getFolder_total h) as [s Hs]. exists (JStr s).
      rewrite resolve_fallback; auto. intros v; congruence.
  - eexists. apply resolve_editor; eauto.
Qed.

Lemma tabBlock_unfold (h : Host) (tab : Tab.t) :
  activeTabOf h = Some tab ->
  truthy (Tab.input tab) = true ->
  tabBlock h =
    (probeDirectUri (Tab.input tab) ;;;
     probeResourceUri (Tab.input tab) ;;;
     probeOptionsUri (Tab.input tab) ;;;
     labelHeuristic tab).
Proof.
  intros H1 H2. unfold tabBlock. unfold activeTabOf in H1. rewrite H1, H2. reflexivity.
Qed.

Lemma tabBlock_no_tab (h : Host) : activeTabOf h = None -> tabBlock h = fallThrough.
Proof. intros H. unfold tabBlock. unfold activeTabOf in H. now rewrite H. Qed.

Lemma tabBlock_no_input (h : Host) (tab : Tab.t) :
  activeTabOf h = Some tab -> truthy (Tab.input tab) = false -> tabBlock h = fallThrough.
Proof. intros H1 H2. unfold tabBlock. unfold activeTabOf in H1. now rewrite H1, H2. Qed.

End Evaluation.

(** ** Basic facts: the probes of the tab input, with each member read once *)

Section Probes.

Variable input : JsVal.

Lemma probeDirectUri_reads :
  probeDirectUri input =
    match get input "uri" with
    | Throw e => Throw e
    | Ok u =>
        if truthy u then
          match get u "fsPath" with
          | Throw e => Throw e
          | Ok p => if isString p then Ok (Some p) else fallThrough
          end
        else fallThrough
    end.
Proof.
  unfold probeDirectUri, when, andAlso, toBool, typeofIsString, ret, dot; simpl.
  destruct (get input "uri") as [u|e]; simpl; [|reflexivity].
  destruct (truthy u); simpl; [|reflexivity].
  destruct (get u "fsPath") as [p|e]; simpl; [|reflexivity].
  now destruct (isString p).
Qed.

Lemma probeResourceUri_reads :
  probeResourceUri input =
    match get input "resource" with
    | Throw e => Throw e
    | Ok r =>
        if truthy r then
          match get r "uri" with
          | Throw e => Throw e
          | Ok u =>
              if truthy u then
                match get u "fsPath" with
                | Throw e => Throw e
                | Ok p => if isString p then Ok (Some p) else fallThrough
                end
              else fallThrough
          end
        else fallThrough
    end.
Proof.
  unfold probeResourceUri, when, andAlso, toBool, typeofIsString, ret, dot; simpl.
  destruct (get input "resource") as [r|e]; simpl; [|reflexivity].
  destruct (truthy r); simpl; [|reflexivity].
  destruct (get r "uri") as [u|e]; simpl; [|reflexivity].
  destruct (truthy u); simpl; [|reflexivity].
  destruct (get u "fsPath") as [p|e]; simpl; [|reflexivity].
  now destruct (isString p).
Qed.

Lemma probeOptionsUri_reads :
  probeOptionsUri input =
    match get input "options" with
    | Throw e => Throw e
    | Ok o =>
        if truthy o then
          match get o "uri" with
          | Throw e => Throw e
          | Ok u =>
              if truthy u then
                match get u "fsPath" with
                | Throw e => Throw e
                | Ok p => if truthy p then Ok (Some p) else fallThrough
                end
              else fallThrough
          end
        else fallThrough
    end.
Proof.
  unfold probeOptionsUri, when, andAlso, toBool, ret, dot; simpl.
  destruct (get input "options") as [o|e]; simpl; [|reflexivity].
  destruct (truthy o); simpl; [|reflexivity].
  destruct (get o "uri") as [u|e]; simpl; [|reflexivity].
  destruct (truthy u); simpl; [|reflexivity].
  destruct (get u "fsPath") as [p|e]; simpl; [|reflexivity].
  now destruct (truthy p).
Qed.

(** What each probe accepts. *)
Lemma probeDirectUri_yields (v : JsVal) :
  yields (probeDirectUri input) v <->
  exists u s, get input "uri" = Ok u /\ truthy u = true /\
              get u "fsPath" = Ok (JStr s) /\ v = JStr s.
Proof.
  unfold yields. rewrite probeDirectUri_reads. split.
  - destruct (get input "uri") as [u|e] eqn:Eu; [|discriminate].
    destruct (truthy u) eqn:Tu; [|discriminate].
    destruct (get u "fsPath") as [p|e] eqn:Ep; [|discriminate].
    destruct p as [| | | | |s| |]; simpl; try discriminate.
    intros [= <-]. exists u, s. auto.
  - intros (u & s & -> & -> & -> & ->). reflexivity.
Qed.

Lemma probeResourceUri_yields (v : JsVal) :
  yields (probeResourceUri input) v <->
  exists r u s, get input "resource" = Ok r /\ truthy r = true /\
                get r "uri" = Ok u /\ truthy u = true /\
                get u "fsPath" = Ok (JStr s) /\ v = JStr s.
Proof.
  unfold yields. rewrite probeResourceUri_reads. split.
  - destruct (get input "resource") as [r|e] eqn:Er; [|discriminate].
    destruct (truthy r) eqn:Tr; [|discriminate].
    destruct (get r "uri") as [u|e] eqn:Eu; [|discriminate].
    destruct (truthy u) eqn:Tu; [|discriminate].
    destruct (get u "fsPath") as [p|e] eqn:Ep; [|discriminate].
    destruct p as [| | | | |s| |]; simpl; try discriminate.
    intros [= <-]. exists r, u, s. auto 10.
  - intros (r & u & s & -> & -> & -> & -> & -> & ->). reflexivity.
Qed.

Lemma probeOptionsUri_yields (v : JsVal) :
  yields (probeOptionsUri input) v <->
  exists o u, get input "options" = Ok o /\ truthy o = true /\
              get o "uri" = Ok u /\ truthy u = true /\
              get u "fsPath" = Ok v /\ truthy v = true.
Proof.
  unfold yields. rewrite probeOptionsUri_reads. split.
  - destruct (get input "options") as [o|e] eqn:Eo; [|discriminate].
    destruct (truthy o) eqn:To; [|discriminate].
    destruct (get o "uri") as [u|e] eqn:Eu; [|discriminate].
    destruct (truthy u) eqn:Tu; [|discriminate].
    destruct (get u "fsPath") as [p|e] eqn:Ep; [|discriminate].
    destruct (truthy p) eqn:Tp; [|discriminate].
    intros [= <-]. exists o, u. auto 10.
  - intros (o & u & -> & -> & -> & -> & -> & ->). reflexivity.
Qed.

End Probes.

(** When the first two probes pass over the input, in terms of the members
    they read. *)
Lemma probeDirectUri_passes (input : JsVal) :
  yieldsNothing (probeDirectUri input) <-> passesOverDirect input.
Proof.
  unfold yieldsNothing, passesOverDirect. rewrite probeDirectUri_reads. split.
  - destruct (get input "uri") as [u|e] eqn:Eu; [|discriminate].
    destruct (truthy u) eqn:Tu; [|eauto].
    destruct (get u "fsPath") as [p|e] eqn:Ep; [|discriminate].
    destruct (isString p) eqn:Sp; [discriminate|]. eauto 6.
  - intros (u & -> & [-> | (p & Hp & Sp)]); [reflexivity|].
    destruct (truthy u); [|reflexivity]. now rewrite Hp, Sp.
Qed.

Lemma probeResourceUri_passes (input : JsVal) :
  yieldsNothing (probeResourceUri input) <-> passesOverNested input.
Proof.
  unfold yieldsNothing, passesOverNested. rewrite probeResourceUri_reads. split.
  - destruct (get input "resource") as [r|e] eqn:Er; [|discriminate].
    intros H. exists r. split; [reflexivity|].
    destruct (truthy r) eqn:Tr; [right|now left].
    destruct (get r "uri") as [u|e] eqn:Eu; [|discriminate].
    exists u. split; [reflexivity|].
    destruct (truthy u) eqn:Tu; [right|now left].
    destruct (get u "fsPath") as [p|e] eqn:Ep; [|discriminate].
    destruct (isString p) eqn:Sp; [discriminate|]. exists p. auto.
  - intros (r & -> & [-> | (u & Hu & [Tu | (p & Hp & Sp)])]); [reflexivity| |].
    + destruct (truthy r); [|reflexivity]. now rewrite Hu, Tu.
    + destruct (truthy r); [|reflexivity]. rewrite Hu.
      destruct (truthy u); [|reflexivity]. now rewrite Hp, Sp.
Qed.

(** [includes] with a one-character needle is occurrence of that character. *)
Lemma includes_char (c : ascii) (s : string) :
  includes s (String c "") = true <-> In c (list_ascii_of_string s).
Proof.
  unfold includes. induction s as [|b s IH]; simpl.
  - split; [discriminate|contradiction].
  - destruct (ascii_dec c b) as [->|Hne].
    + split; [auto|]. intros _. now destruct s.
    + destruct (String.index 0 (String c "") s) as [n|].
      * split; [|reflexivity]. intros _. right. now apply IH.
      * split; [discriminate|]. intros [Heq|Hin]; [congruence|].
        now apply IH in Hin.
Qed.

Lemma labelHeuristic_yields (tab : Tab.t) (v : JsVal) :
  yields (labelHeuristic tab) v <->
  exists lbl, Tab.label tab = JStr lbl /\
              (includes lbl "/" = true \/ includes lbl "\" = true) /\ v = JStr lbl.
Proof.
  unfold yields, labelHeuristic. split.
  - destruct (Tab.label tab); try discriminate.
    destruct (includes s "/") eqn:E1; simpl.
    + intros [= <-]. eauto.
    + destruct (includes s "\") eqn:E2; simpl; [|discriminate].
      intros [= <-]. eauto.
  - intros (lbl & -> & Hsep & ->).
    destruct Hsep as [-> | ->]; simpl; [reflexivity|].
    now rewrite orb_true_r.
Qed.

(** The label heuristic never throws. *)
Lemma labelHeuristic_cases (tab : Tab.t) :
  labelHeuristic tab = fallThrough \/ exists lbl, labelHeuristic tab = Ok (Some (JStr lbl)).
Proof.
  unfold labelHeuristic. destruct (Tab.label tab); eauto.
  destruct (includes s "/" || includes s "\"); simpl; eauto.
Qed.

Lemma tabYieldsNothing_block (h : Host) : tabYieldsNothing h -> tabBlock h = fallThrough.
Proof.
  intros H. destruct (activeTabOf h) as [tab|] eqn:E.
  - destruct (truthy (Tab.input tab)) eqn:T.
    + rewrite (tabBlock_unfold h tab E T).
      destruct (H tab E T) as (-> & -> & -> & ->). reflexivity.
    + eapply tabBlock_no_input; eauto.
  - now apply tabBlock_no_tab.
Qed.

(** ** Basic facts: writing *)

Lemma editorPath_folderPath : editorPath <> folderPath.
Proof. discriminate. Qed.

Section Store.

Lemma store_lookup_ne (d p : string) (o : option string) (m : gmap string string) :
  p <> d -> store d o m !! p = m !! p.
Proof. intros H. destruct o; simpl; [|reflexivity]. now rewrite lookup_insert_ne. Qed.

Lemma store_twice (d1 d2 : string) (o1 o2 : option string) (m : gmap string string) :
  d1 <> d2 ->
  store d2 o2 (store d1 o1 (store d2 o2 (store d1 o1 m))) = store d2 o2 (store d1 o1 m).
Proof.
  intros H. destruct o1 as [a|], o2 as [b|]; simpl.
  - rewrite (insert_insert_ne _ d1 d2) by assumption.
    now rewrite !insert_insert_eq.
  - now rewrite insert_insert_eq.
  - now rewrite insert_insert_eq.
  - reflexivity.
Qed.

End Store.

Section Writing.

(** The file system a write leaves, and whether it throws, by [leftover]. *)
Lemma writeFileSync_leaves (d : string) (c : JsVal) (f : FileSystem) :
  (writeFileSync d (orElse c (JStr "")) f).1 =
    setFiles f (store d (leftover d c f) (files f)).
Proof.
  unfold writeFileSync, leftover.
  destruct (bytesOf (orElse c (JStr ""))) as [s|]; simpl.
  - destruct (decide (d ∈ denied f)); simpl; [|reflexivity].
    destruct (partial f !! d); simpl; [reflexivity|]. now destruct f.
  - now destruct f.
Qed.

Lemma writeRefused_bytes (d : string) (c : JsVal) (f : FileSystem) :
  writeRefused d (Ok c) f =
    match bytesOf (orElse c (JStr "")) with
    | Some _ => bool_decide (d ∈ denied f)
    | None => true
    end.
Proof.
  unfold writeRefused, writeFileSync.
  destruct (bytesOf (orElse c (JStr ""))); [|reflexivity].
  destruct (decide (d ∈ denied f)) as [Hd|Hd].
  - rewrite (bool_decide_eq_true_2 _ Hd). now destruct (partial f !! d).
  - now rewrite (bool_decide_eq_false_2 _ Hd).
Qed.

Lemma leftover_faults (d : string) (c : JsVal) (f f' : FileSystem) :
  denied f = denied f' -> partial f = partial f' -> leftover d c f = leftover d c f'.
Proof. intros H1 H2. unfold leftover. now rewrite H1, H2. Qed.

Lemma writeRefused_faults (d : string) (c : JsVal) (f f' : FileSystem) :
  denied f = denied f' -> writeRefused d (Ok c) f = writeRefused d (Ok c) f'.
Proof. intros H. now rewrite !writeRefused_bytes, H. Qed.

Lemma leftover_string (d s : string) (f : FileSystem) :
  d ∉ denied f -> leftover d (JStr s) f = Some s.
Proof.
  intros H. unfold leftover. rewrite orElse_string. simpl.
  destruct (decide (d ∈ denied f)); [contradiction|reflexivity].
Qed.

Lemma writeRefused_string (d s : string) (f : FileSystem) :
  d ∉ denied f -> writeRefused d (Ok (JStr s)) f = false.
Proof.
  intros H. rewrite writeRefused_bytes, orElse_string. simpl.
  now apply bool_decide_eq_false_2.
Qed.

Lemma tryWrite_accepted (d s : string) (w : World) :
  d ∉ denied (fs w) ->
  tryWrite d (JStr s) w = Ok (setFs w (setFiles (fs w) (<[d := s]> (files (fs w))))).
Proof.
  intros H. unfold tryWrite, writeFileSync. rewrite orElse_string. simpl.
  destruct (decide (d ∈ denied (fs w))); [contradiction|reflexivity].
Qed.

End Writing.

(** ** The effect of one [tryWrite], and of a callback, on the world *)

Section Effects.

Lemma effect_trans (w w1 w2 : World) (m1 m2 : gmap string string) (n1 n2 : nat) :
  effect w w1 m1 n1 -> effect w1 w2 m2 n2 -> effect w w2 m2 (n1 + n2).
Proof.
  intros (Hh1 & Hd1 & Hp1 & Hf1 & e1 & Hc1 & Hl1 & HF1)
         (Hh2 & Hd2 & Hp2 & Hf2 & e2 & Hc2 & Hl2 & HF2).
  repeat split; try congruence.
  exists (e1 ++ e2)%list. repeat split.
  - rewrite Hc2, Hc1. now rewrite app_assoc.
  - rewrite length_app. congruence.
  - apply Forall_app. auto.
Qed.

(** One [tryWrite]: it returns, the destination holds what [leftover]
    says, and the console has one more entry exactly when the write was
    refused. *)
Lemma tryWrite_effect (d : string) (c : JsVal) (w : World) :
  exists w', tryWrite d c w = Ok w' /\
    effect w w' (store d (leftover d c (fs w)) (files (fs w)))
           (refusals (writeRefused d (Ok c) (fs w))).
Proof.
  pose proof (writeFileSync_leaves d c (fs w)) as Hleft.
  unfold tryWrite, writeRefused.
  destruct (writeFileSync d (orElse c (JStr "")) (fs w)) as [f [[]|err]] eqn:E;
    simpl in Hleft |- *; subst f.
  - eexists. split; [reflexivity|].
    repeat split. exists []. rewrite app_nil_r. repeat split. constructor.
  - eexists. split; [reflexivity|].
    repeat split. exists [("Failed to write to file:", err)].
    repeat split. repeat constructor.
Qed.

Lemma writeActivePath_effect (w : World) :
  exists v w', resolveActivePath (host w) = Ok v /\ writeActivePath w = Ok w' /\
    effect w w' (store editorPath (leftover editorPath v (fs w)) (files (fs w)))
           (refusals (writeRefused editorPath (resolveActivePath (host w)) (fs w))).
Proof.
  destruct (resolveActivePath_total (host w)) as [v Hv].
  destruct (tryWrite_effect editorPath v w) as (w' & H & Hrest).
  exists v, w'. unfold writeActivePath. rewrite Hv; simpl. auto.
Qed.

Lemma writeActiveFolder_effect (w : World) :
  exists s w', getFolder (host w) = Ok (JStr s) /\ writeActiveFolder w = Ok w' /\
    effect w w' (store folderPath (leftover folderPath (JStr s) (fs w)) (files (fs w)))
           (refusals (writeRefused folderPath (getFolder (host w)) (fs w))).
Proof.
  destruct (getFolder_total (host w)) as [s Hs].
  destruct (tryWrite_effect folderPath (JStr s) w) as (w' & H & Hrest).
  exists s, w'. unfold writeActiveFolder. rewrite Hs; simpl. auto.
Qed.

Lemma writeBoth_effect (w : World) :
  exists v s w', resolveActivePath (host w) = Ok v /\ getFolder (host w) = Ok (JStr s) /\
    writeBoth w = Ok w' /\
    effect w w'
      (store folderPath (leftover folderPath (JStr s) (fs w))
         (store editorPath (leftover editorPath v (fs w)) (files (fs w))))
      (refusals (writeRefused editorPath (resolveActivePath (host w)) (fs w)) +
       refusals (writeRefused folderPath (getFolder (host w)) (fs w))).
Proof.
  destruct (writeActivePath_effect w) as (v & w1 & Hv & H1 & E1).
  destruct (writeActiveFolder_effect w1) as (s & w2 & Hs & H2 & E2).
  pose proof E1 as (Hh1 & Hd1 & Hp1 & Hf1 & _).
  rewrite Hh1 in Hs, E2.
  rewrite Hs in E2.
  rewrite (leftover_faults folderPath (JStr s) (fs w1) (fs w) Hd1 Hp1) in E2.
  rewrite (writeRefused_faults folderPath (JStr s) (fs w1) (fs w) Hd1) in E2.
  rewrite Hf1 in E2.
  exists v, s, w2. split; [exact Hv|]. split; [exact Hs|]. split.
  - unfold writeBoth. rewrite H1; simpl. exact H2.
  - rewrite Hs. eapply effect_trans; eauto.
Qed.

End Effects.

(** Everything a callback does to the world, in one statement: it returns
    normally, leaves the host alone, leaves in each destination what its
    write leaves there and logs one entry per refused write, nothing else. *)
Lemma callback_effect (ev : Event) (w : World) :
  exists (v : JsVal) (s : string) (w' : World),
    resolveActivePath (host w) = Ok v /\
    getFolder (host w) = Ok (JStr s) /\
    callback ev w = Ok w' /\
    effect w w'
      (store folderPath
         (if writesActiveFolder ev then leftover folderPath (JStr s) (fs w) else None)
         (store editorPath
            (if writesActivePath ev then leftover editorPath v (fs w) else None)
            (files (fs w))))
      (failedWrites ev w).
Proof.
  destruct (writeActivePath_effect w) as (v & w1 & Hv & H1 & E1).
  destruct (writeActiveFolder_effect w) as (s & w2 & Hs & H2 & E2).
  destruct (writeBoth_effect w) as (v' & s' & w3 & Hv' & Hs' & H3 & E3).
  assert (v' = v) as -> by congruence.
  assert (s' = s) as -> by congruence.
  exists v, s. unfold failedWrites.
  destruct ev; simpl.
  - exists w1. rewrite Nat.add_0_r. auto.
  - exists w3. auto.
  - exists w3. auto.
  - exists w2. auto.
  - exists w2. auto.
Qed.

(** No callback throws. *)
Lemma callback_total (ev : Event) (w : World) : exists w', callback ev w = Ok w'.
Proof. destruct (callback_effect ev w) as (v & s & w' & _ & _ & H & _). eauto. Qed.

(** An accepted write of the resolved path: the active-path file holds it
    after the callback. *)
Lemma callback_stores_active_path (ev : Event) (w : World) (s : string) :
  writesActivePath ev = true ->
  resolveActivePath (host w) = Ok (JStr s) ->
  editorPath ∉ denied (fs w) ->
  exists w', callback ev w = Ok w' /\ readFile (fs w') editorPath = Some s.
Proof.
  intros Hev Hres Hok.
  destruct (callback_effect ev w) as (v & f & w' & Hv & _ & Hcb & _ & _ & _ & Hf & _).
  rewrite Hres in Hv. injection Hv as <-.
  exists w'. split; [exact Hcb|].
  unfold readFile. rewrite Hf, Hev.
  rewrite store_lookup_ne by apply editorPath_folderPath.
  rewrite (leftover_string editorPath s (fs w) Hok). simpl. apply lookup_insert_eq.
Qed.

(** ** The testable properties of the specification, evaluated *)

Example image_tab_without_editor :
  resolveActivePath Sample.editorNoDocument = Ok (JStr "/img/x.png").
Proof. reflexivity. Qed.

Example two_folders_first_wins : getFolder Sample.twoFolders = Ok (JStr "/proj/a").
Proof. reflexivity. Qed.

Example no_folder_tilde : getFolder Sample.labelOnly = Ok (JStr "~").
Proof. reflexivity. Qed.

Example activate_writes_both :
  exists w', activate (Sample.world Sample.editorAndImage) = Ok w' /\
             readFile (fs w') editorPath = Some "/a/b.txt" /\
             readFile (fs w') folderPath = Some "~" /\
             console w' = [].
Proof. eexists. repeat split. Qed.

(** ** The properties of the specification *)


(** C1. When an active text editor exists and its document has a resource
    URI, [resolveActivePath] returns that URI's [fsPath], whatever tabs are
    open; a callback that writes the active-path file then leaves exactly
    that path in it (the write being accepted by the file system). *)
Theorem C1_editor_path_priority
    (w : World) (ed : TextEditor.t) (doc : TextDocument.t) (u : Uri.t) (ev : Event) :
  activeTextEditor (host w) = Some ed ->
  TextEditor.document ed = Some doc ->
  TextDocument.uri doc = Some u ->
  writesActivePath ev = true ->
  editorPath ∉ denied (fs w) ->
  resolveActivePath (host w) = Ok (JStr (Uri.fsPath u)) /\
  (forall g, resolveActivePath (withTabs (host w) g) = Ok (JStr (Uri.fsPath u))) /\
  exists w', callback ev w = Ok w' /\ readFile (fs w') editorPath = Some (Uri.fsPath u).
Proof.
  intros Hed Hdoc Huri Hev Hok.
  assert (Hres : resolveActivePath (host w) = Ok (JStr (Uri.fsPath u))).
  { apply resolve_editor. eapply editorStep_uri; eauto. }
  split; [exact Hres|]. split.
  - intros g. apply resolve_editor. eapply editorStep_uri; eauto.
  - now apply callback_stores_active_path.
Qed.

Lemma C1_editor_path_priority_witness :
  resolveActivePath Sample.editorAndImage = Ok (JStr "/a/b.txt") /\
  (forall g, resolveActivePath (withTabs Sample.editorAndImage g) = Ok (JStr "/a/b.txt")) /\
  exists w', callback TabsChanged (Sample.world Sample.editorAndImage) = Ok w' /\
             readFile (fs w') editorPath = Some "/a/b.txt".
Proof.
  apply (C1_editor_path_priority (Sample.world Sample.editorAndImage)
           (Sample.editorOn "/a/b.txt")
           {| TextDocument.uri := Some {| Uri.fsPath := "/a/b.txt" |} |}
           {| Uri.fsPath := "/a/b.txt" |} TabsChanged);
    try reflexivity.
  simpl. apply not_elem_of_empty.
Defined.

(** C2, as stated, fails: a direct [uri] whose [fsPath] is the empty string
    is returned although the nested resource carries the non-empty path
    [/img/x.png], the first present, non-empty one. *)
Lemma C2_empty_direct_path_counterexample :
  yieldsNothing (editorStep Sample.emptyDirect) /\
  firstPresentNonEmpty Sample.emptyDirectInput = Some "/img/x.png" /\
  resolveActivePath Sample.emptyDirect = Ok (JStr "") /\
  resolveActivePath Sample.emptyDirect <> Ok (JStr "/img/x.png").
Proof. repeat split. discriminate. Qed.

(** C2, amended. With no path from the editor step and an active tab whose
    input is truthy, the input is probed in the order direct [uri], nested
    [resource.uri], [options.uri], and the value of the first probe that
    accepts is returned: the first two accept any string [fsPath] (the empty
    string included), the third any truthy [fsPath]; a later probe counts
    only when every earlier one fell through. *)
Theorem C2_tab_probe_order (h : Host) (tab : Tab.t) :
  yieldsNothing (editorStep h) ->
  activeTabOf h = Some tab ->
  truthy (Tab.input tab) = true ->
  (forall u s,
     get (Tab.input tab) "uri" = Ok u -> truthy u = true ->
     get u "fsPath" = Ok (JStr s) ->
     resolveActivePath h = Ok (JStr s)) /\
  (forall r u s,
     passesOverDirect (Tab.input tab) ->
     get (Tab.input tab) "resource" = Ok r -> truthy r = true ->
     get r "uri" = Ok u -> truthy u = true ->
     get u "fsPath" = Ok (JStr s) ->
     resolveActivePath h = Ok (JStr s)) /\
  (forall o u v,
     passesOverDirect (Tab.input tab) ->
     passesOverNested (Tab.input tab) ->
     get (Tab.input tab) "options" = Ok o -> truthy o = true ->
     get o "uri" = Ok u -> truthy u = true ->
     get u "fsPath" = Ok v -> truthy v = true ->
     resolveActivePath h = Ok v).
Proof.
  intros He Htab Hin.
  pose proof (tabBlock_unfold h tab Htab Hin) as Hblock.
  split; [|split].
  - intros u s Hu Tu Hp.
    apply resolve_tab; [exact He|]. rewrite Hblock.
    assert (Hy : yields (probeDirectUri (Tab.input tab)) (JStr s)).
    { apply probeDirectUri_yields. exists u, s. auto. }
    rewrite Hy. reflexivity.
  - intros r u s H1 Hr Tr Hu Tu Hp.
    apply resolve_tab; [exact He|]. rewrite Hblock.
    apply probeDirectUri_passes in H1. rewrite H1.
    assert (Hy : yields (probeResourceUri (Tab.input tab)) (JStr s)).
    { apply probeResourceUri_yields. exists r, u, s. auto 10. }
    rewrite Hy. reflexivity.
  - intros o u v H1 H2 Ho To Hu Tu Hp Tv.
    apply resolve_tab; [exact He|]. rewrite Hblock.
    apply probeDirectUri_passes in H1. apply probeResourceUri_passes in H2.
    rewrite H1, H2.
    assert (Hy : yields (probeOptionsUri (Tab.input tab)) v).
    { apply probeOptionsUri_yields. exists o, u. auto 10. }
    rewrite Hy. reflexivity.
Qed.

Lemma C2_tab_probe_order_witness :
  resolveActivePath Sample.emptyDirect = Ok (JStr "") /\
  resolveActivePath Sample.nestedOnly = Ok (JStr "/img/x.png") /\
  resolveActivePath Sample2.numericOptions = Ok (JNum 42).
Proof.
  split; [|split].
  - apply (proj1 (C2_tab_probe_order Sample.emptyDirect
             {| Tab.input := Sample.emptyDirectInput; Tab.label := JStr "x.png" |}
             eq_refl eq_refl eq_refl) (Sample.uriObject "") ""); reflexivity.
  - apply (proj1 (proj2 (C2_tab_probe_order Sample.nestedOnly
             {| Tab.input := Sample.nestedInput; Tab.label := JStr "x.png" |}
             eq_refl eq_refl eq_refl))
             (JObj [("uri", Data (Sample.uriObject "/img/x.png"))])
             (Sample.uriObject "/img/x.png") "/img/x.png"); try reflexivity.
    exists JUndefined. split; [reflexivity|]. left. reflexivity.
  - apply (proj2 (proj2 (C2_tab_probe_order Sample2.numericOptions
             {| Tab.input := Sample2.numericOptionsInput; Tab.label := JStr "custom" |}
             eq_refl eq_refl eq_refl))
             (JObj [("uri", Data (JObj [("fsPath", Data (JNum 42))]))])
             (JObj [("fsPath", Data (JNum 42))]) (JNum 42)); try reflexivity.
    + exists JUndefined. split; [reflexivity|]. left. reflexivity.
    + exists JUndefined. split; [reflexivity|]. left. reflexivity.
Defined.

(** C3, as stated, fails: a tab that has a path-like label and no input at
    all (hence no resolvable resource) does not get its label returned, the
    label test being nested under the test of the input; the same happens
    when probing the input throws. *)
Lemma C3_label_without_input_counterexample :
  (yieldsNothing (editorStep Sample.labelOnly) /\
   activeTabOf Sample.labelOnly =
     Some {| Tab.input := JUndefined; Tab.label := JStr "folder/readme.md" |} /\
   noResolvableResource {| Tab.input := JUndefined; Tab.label := JStr "folder/readme.md" |} /\
   includes "folder/readme.md" "/" = true /\
   resolveActivePath Sample.labelOnly = Ok (JStr "~") /\
   exists w', callback ActiveTextEditorChanged (Sample.world Sample.labelOnly) = Ok w' /\
              readFile (fs w') editorPath = Some "~") /\
  (noResolvableResource
     {| Tab.input := Sample.throwingInput; Tab.label := JStr "folder/readme.md" |} /\
   resolveActivePath Sample.labelledThrowing = Ok (JStr "~")).
Proof.
  split; [split; [reflexivity|split; [reflexivity|split; [|split; [reflexivity|split]]]]|split].
  - intros v. repeat split; intros H; discriminate H.
  - reflexivity.
  - eexists. split; reflexivity.
  - intros v. repeat split; intros H; discriminate H.
  - reflexivity.
Qed.

(** C3, amended. With no path from the editor step and an active tab whose
    input is truthy and is passed over by all three probes, a string label
    containing ['/'] or ['\'] is returned verbatim; a callback that writes
    the active-path file then leaves exactly that label in it (the write
    being accepted by the file system). *)
Theorem C3_label_heuristic (w : World) (tab : Tab.t) (lbl : string) (ev : Event) :
  yieldsNothing (editorStep (host w)) ->
  activeTabOf (host w) = Some tab ->
  truthy (Tab.input tab) = true ->
  yieldsNothing (probeDirectUri (Tab.input tab)) ->
  yieldsNothing (probeResourceUri (Tab.input tab)) ->
  yieldsNothing (probeOptionsUri (Tab.input tab)) ->
  Tab.label tab = JStr lbl ->
  includes lbl "/" = true \/ includes lbl "\" = true ->
  writesActivePath ev = true ->
  editorPath ∉ denied (fs w) ->
  resolveActivePath (host w) = Ok (JStr lbl) /\
  exists w', callback ev w = Ok w' /\ readFile (fs w') editorPath = Some lbl.
Proof.
  intros He Htab Hin H1 H2 H3 Hl Hsep Hev Hok.
  assert (Hres : resolveActivePath (host w) = Ok (JStr lbl)).
  { apply resolve_tab; [exact He|].
    rewrite (tabBlock_unfold _ tab Htab Hin), H1, H2, H3. simpl.
    apply labelHeuristic_yields. eauto. }
  split; [exact Hres|]. now apply callback_stores_active_path.
Qed.

Lemma C3_label_heuristic_witness :
  resolveActivePath Sample.labelledWebview = Ok (JStr "folder/readme.md") /\
  exists w', callback ActiveTextEditorChanged (Sample.world Sample.labelledWebview) = Ok w' /\
             readFile (fs w') editorPath = Some "folder/readme.md".
Proof.
  apply (C3_label_heuristic (Sample.world Sample.labelledWebview)
           {| Tab.input := Sample.webviewInput; Tab.label := JStr "folder/readme.md" |}
           "folder/readme.md" ActiveTextEditorChanged);
    try reflexivity.
  - left. reflexivity.
  - simpl. apply not_elem_of_empty.
Defined.

(** C4. When the editor step, the tab-input probes and the label heuristic
    all yield nothing, [resolveActivePath] returns what [getFolder] returns;
    and [getFolder] returns the [fsPath] of the workspace folder at index 0
    when there is one, and ["~"] when no folder is open. *)
Theorem C4_folder_fallback (h : Host) :
  (yieldsNothing (editorStep h) -> tabYieldsNothing h ->
   resolveActivePath h = getFolder h) /\
  (forall f rest, workspaceFolders h = Some (f :: rest) ->
     getFolder h = Ok (JStr (Uri.fsPath (WorkspaceFolder.uri f)))) /\
  (workspaceFolders h = None \/ workspaceFolders h = Some [] ->
     getFolder h = Ok (JStr "~")).
Proof.
  split; [|split].
  - intros He Ht. apply resolve_fallback; [exact He|].
    rewrite (tabYieldsNothing_block h Ht). discriminate.
  - intros f rest. apply getFolder_first.
  - apply getFolder_none.
Qed.

Lemma C4_folder_fallback_witness :
  resolveActivePath Sample.twoFolders = getFolder Sample.twoFolders /\
  getFolder Sample.twoFolders = Ok (JStr "/proj/a") /\
  getFolder Sample.labelOnly = Ok (JStr "~").
Proof.
  split; [|split].
  - apply (C4_folder_fallback Sample.twoFolders); [reflexivity|].
    intros tab Htab. discriminate Htab.
  - apply (proj1 (proj2 (C4_folder_fallback Sample.twoFolders))
             (Sample.folder "/proj/a") [Sample.folder "/proj/b"]).
    reflexivity.
  - apply (proj2 (proj2 (C4_folder_fallback Sample.labelOnly))).
    left. reflexivity.
Defined.

(** C5, as stated, fails: when the first tab-input probe throws, the steps
    after it inside the tab block do not run.  Here the label heuristic
    would return the label, and guarding every step on its own would give
    that label, but [resolveActivePath] answers with the folder fallback. *)
Lemma C5_throw_skips_label_counterexample :
  probeDirectUri Sample.throwingInput = Throw (JStr "boom") /\
  labelHeuristic {| Tab.input := Sample.throwingInput; Tab.label := JStr "folder/readme.md" |}
    = Ok (Some (JStr "folder/readme.md")) /\
  resolveStepwise Sample.labelledThrowing = Ok (JStr "folder/readme.md") /\
  resolveActivePath Sample.labelledThrowing = Ok (JStr "~") /\
  resolveActivePath Sample.labelledThrowing <> resolveStepwise Sample.labelledThrowing.
Proof. repeat split. discriminate. Qed.

(** C5, amended. [resolveActivePath] never throws; a value thrown while a
    tab-input probe runs is swallowed by the one [try] around the tab
    steps, the rest of those steps is skipped, and the result is what
    [getFolder] returns. *)
Theorem C5_throw_in_tab_block (h : Host) :
  (exists v, resolveActivePath h = Ok v) /\
  (forall tab e,
     yieldsNothing (editorStep h) ->
     activeTabOf h = Some tab ->
     truthy (Tab.input tab) = true ->
     probeDirectUri (Tab.input tab) = Throw e \/
     (yieldsNothing (probeDirectUri (Tab.input tab)) /\
      probeResourceUri (Tab.input tab) = Throw e) \/
     (yieldsNothing (probeDirectUri (Tab.input tab)) /\
      yieldsNothing (probeResourceUri (Tab.input tab)) /\
      probeOptionsUri (Tab.input tab) = Throw e) ->
     tabBlock h = Throw e /\ resolveActivePath h = getFolder h).
Proof.
  split; [apply resolveActivePath_total|].
  intros tab e He Htab Hin Hthrow.
  assert (Hblock : tabBlock h = Throw e).
  { rewrite (tabBlock_unfold h tab Htab Hin).
    destruct Hthrow as [-> | [[-> ->] | (-> & -> & ->)]]; reflexivity. }
  split; [exact Hblock|].
  apply resolve_fallback; [exact He|]. rewrite Hblock. discriminate.
Qed.

Lemma C5_throw_in_tab_block_witness :
  tabBlock Sample.labelledThrowing = Throw (JStr "boom") /\
  resolveActivePath Sample.labelledThrowing = getFolder Sample.labelledThrowing.
Proof.
  apply (proj2 (C5_throw_in_tab_block Sample.labelledThrowing)
           {| Tab.input := Sample.throwingInput; Tab.label := JStr "folder/readme.md" |}
           (JStr "boom")); try reflexivity.
  left. reflexivity.
Defined.

(** C6, as stated, fails on "and logged": a failure while probing the tab
    input is caught inside [resolveActivePath] and leaves no trace on the
    console. *)
Lemma C6_probe_failure_not_logged_counterexample :
  tabBlock Sample.labelledThrowing = Throw (JStr "boom") /\
  exists w', callback ActiveTextEditorChanged (Sample.world Sample.labelledThrowing) = Ok w' /\
             console w' = [].
Proof. split; [reflexivity|]. eexists. split; reflexivity. Qed.

(** C6, amended. Every callback registered by [activate] returns normally,
    whatever the host state and the file system: a failure while probing
    the tab input is caught and ignored without a log entry, a failure
    while writing is caught and logged, so the console grows by exactly one
    "Failed to write to file:" entry per refused write. *)
Theorem C6_callbacks_never_throw (ev : Event) (w : World) :
  exists w' entries,
    callback ev w = Ok w' /\
    console w' = (console w ++ entries)%list /\
    length entries = failedWrites ev w /\
    Forall isWriteFailure entries.
Proof.
  destruct (callback_effect ev w)
    as (v & s & w' & _ & _ & Hcb & _ & _ & _ & _ & en & Hc & Hl & HF).
  exists w', en. auto.
Qed.

(** C7, as stated, fails on "the file's previous contents intact":
    [fs.writeFileSync] opens the file with flag ['w'], which empties it,
    before it writes; when the disk is full the write fails after that, the
    failure is caught and logged, and the older path is gone. *)
Lemma C7_failed_write_truncates_counterexample :
  readFile Sample2.diskFull editorPath = Some "/old/path.txt" /\
  exists w',
    tryWrite editorPath (JStr "/a/b.txt") (Sample2.diskFullWorld Sample.editorAndImage)
      = Ok w' /\
    console w' = [("Failed to write to file:", JStr "ENOSPC")] /\
    readFile (fs w') editorPath = Some "".
Proof. split; [reflexivity|]. eexists. repeat split. Qed.

(** C7, amended. [tryWrite] never throws and touches no file but its
    destination.  Given a string it replaces the content of the destination
    with that string when the file system accepts the write; a refused
    write is logged with one entry and leaves the destination as it was
    when it fails before the file is opened, and with the part written so
    far (possibly nothing) when it fails after; a falsy content is written
    as the empty string. *)
Theorem C7_tryWrite (dest : string) (w : World) :
  (forall s : string, exists w',
     tryWrite dest (JStr s) w = Ok w' /\ host w' = host w /\
     (forall p, p <> dest -> readFile (fs w') p = readFile (fs w) p) /\
     (((dest ∉ denied (fs w)) /\
       files (fs w') = <[dest := s]> (files (fs w)) /\
       console w' = console w) \/
      ((dest ∈ denied (fs w)) /\
       (exists err : JsVal,
          console w' = (console w ++ [("Failed to write to file:", err)])%list) /\
       files (fs w') =
         match partial (fs w) !! dest with
         | None => files (fs w)
         | Some n => <[dest := String.substring 0 n s]> (files (fs w))
         end))) /\
  (forall c, truthy c = false -> tryWrite dest c w = tryWrite dest (JStr "") w) /\
  (forall c, exists w', tryWrite dest c w = Ok w').
Proof.
  split; [|split].
  - intros s. unfold tryWrite, writeFileSync. rewrite orElse_string. simpl.
    destruct (decide (dest ∈ denied (fs w))) as [Hd|Hd].
    + destruct (partial (fs w) !! dest) as [n|] eqn:Hn; simpl.
      * eexists. split; [reflexivity|]. split; [reflexivity|]. split.
        { intros p Hp. unfold readFile; simpl. now rewrite lookup_insert_ne. }
        right. split; [exact Hd|]. split; [eexists; reflexivity|reflexivity].
      * eexists. split; [reflexivity|]. split; [reflexivity|]. split.
        { intros p Hp. reflexivity. }
        right. split; [exact Hd|]. split; [eexists; reflexivity|reflexivity].
    + simpl. eexists. split; [reflexivity|]. split; [reflexivity|]. split.
      { intros p Hp. unfold readFile; simpl. now rewrite lookup_insert_ne. }
      left. auto.
  - intros c Hc. unfold tryWrite. rewrite (orElse_falsy c Hc).
    now rewrite (orElse_string "").
  - intros c. destruct (tryWrite_effect dest c w) as (w' & H & _). eauto.
Qed.

Lemma C7_tryWrite_witness :
  tryWrite editorPath JUndefined (Sample.world Sample.twoFolders) =
    tryWrite editorPath (JStr "") (Sample.world Sample.twoFolders) /\
  exists w', tryWrite editorPath JUndefined (Sample.world Sample.twoFolders) = Ok w' /\
             readFile (fs w') editorPath = Some "".
Proof.
  split.
  - apply (proj1 (proj2 (C7_tryWrite editorPath (Sample.world Sample.twoFolders))) JUndefined).
    reflexivity.
  - eexists. split; reflexivity.
Defined.

(** C8. A callback leaves the host state alone, so [resolveActivePath] and
    [getFolder] answer the same on the next invocation, and firing the same
    event a second time leaves the files exactly as the first firing left
    them. *)
Theorem C8_same_event_twice (ev : Event) (w : World) :
  exists w1 w2,
    callback ev w = Ok w1 /\
    callback ev w1 = Ok w2 /\
    host w1 = host w /\
    resolveActivePath (host w1) = resolveActivePath (host w) /\
    getFolder (host w1) = getFolder (host w) /\
    files (fs w2) = files (fs w1).
Proof.
  destruct (callback_effect ev w)
    as (v & s & w1 & Hv & Hs & H1 & Hh1 & Hd1 & Hp1 & Hf1 & _).
  destruct (callback_effect ev w1)
    as (v' & s' & w2 & Hv' & Hs' & H2 & Hh2 & Hd2 & Hp2 & Hf2 & _).
  rewrite Hh1 in Hv', Hs'.
  assert (v' = v) as -> by congruence.
  assert (s' = s) as -> by congruence.
  exists w1, w2. repeat split; try assumption; try (now rewrite Hh1).
  rewrite Hf2, Hf1.
  rewrite !(leftover_faults _ _ (fs w1) (fs w) Hd1 Hp1).
  apply store_twice, editorPath_folderPath.
Qed.

(** C9. The active-editor-changed callback touches no file but the
    active-path file, and the workspace-folders-changed and
    window-state-changed callbacks touch no file but the active-folder
    file. *)
Theorem C9_callbacks_frame (w : World) :
  (exists w', callback ActiveTextEditorChanged w = Ok w' /\
     readFile (fs w') folderPath = readFile (fs w) folderPath /\
     forall p, p <> editorPath -> readFile (fs w') p = readFile (fs w) p) /\
  (exists w', callback WorkspaceFoldersChanged w = Ok w' /\
     readFile (fs w') editorPath = readFile (fs w) editorPath /\
     forall p, p <> folderPath -> readFile (fs w') p = readFile (fs w) p) /\
  (exists w', callback WindowStateChanged w = Ok w' /\
     readFile (fs w') editorPath = readFile (fs w) editorPath /\
     forall p, p <> folderPath -> readFile (fs w') p = readFile (fs w) p).
Proof.
  assert (Hne : folderPath <> editorPath) by (intros H; now apply editorPath_folderPath).
  split; [|split].
  - destruct (callback_effect ActiveTextEditorChanged w)
      as (v & s & w' & _ & _ & H & _ & _ & _ & Hf & _).
    simpl in Hf.
    assert (Hfr : forall p, p <> editorPath -> readFile (fs w') p = readFile (fs w) p).
    { intros p Hp. unfold readFile. rewrite Hf. now apply store_lookup_ne. }
    exists w'. auto.
  - destruct (callback_effect WorkspaceFoldersChanged w)
      as (v & s & w' & _ & _ & H & _ & _ & _ & Hf & _).
    simpl in Hf.
    assert (Hfr : forall p, p <> folderPath -> readFile (fs w') p = readFile (fs w) p).
    { intros p Hp. unfold readFile. rewrite Hf. now apply store_lookup_ne. }
    exists w'. split; [exact H|]. split; [|exact Hfr].
    apply Hfr, editorPath_folderPath.
  - destruct (callback_effect WindowStateChanged w)
      as (v & s & w' & _ & _ & H & _ & _ & _ & Hf & _).
    simpl in Hf.
    assert (Hfr : forall p, p <> folderPath -> readFile (fs w') p = readFile (fs w) p).
    { intros p Hp. unfold readFile. rewrite Hf. now apply store_lookup_ne. }
    exists w'. split; [exact H|]. split; [|exact Hfr].
    apply Hfr, editorPath_folderPath.
Qed.

Lemma C9_callbacks_frame_witness :
  exists w', callback ActiveTextEditorChanged (Sample.world Sample.editorAndImage) = Ok w' /\
             readFile (fs w') "/tmp/notes.txt" =
               readFile (fs (Sample.world Sample.editorAndImage)) "/tmp/notes.txt".
Proof.
  destruct (proj1 (C9_callbacks_frame (Sample.world Sample.editorAndImage)))
    as (w' & H & _ & Hfr).
  exists w'. split; [exact H|]. apply Hfr. discriminate.
Defined.

(** C10. An active editor whose document, or whose document's URI, is
    absent makes the editor step fall through: [resolveActivePath] does not
    fail and answers exactly as it does with no active editor. *)
Theorem C10_editor_without_uri (h : Host) (ed : TextEditor.t) :
  activeTextEditor h = Some ed ->
  (TextEditor.document ed = None \/
   exists doc, TextEditor.document ed = Some doc /\ TextDocument.uri doc = None) ->
  yieldsNothing (editorStep h) /\
  (exists v, resolveActivePath h = Ok v) /\
  resolveActivePath h = resolveActivePath (withoutEditor h).
Proof.
  intros Hed Habs.
  assert (Hstep : editorStep h = fallThrough).
  { unfold editorStep. rewrite Hed; simpl.
    destruct Habs as [-> | (doc & -> & Hu)]; simpl; [reflexivity|].
    now rewrite Hu. }
  split; [exact Hstep|]. split; [apply resolveActivePath_total|].
  unfold resolveActivePath. rewrite Hstep. reflexivity.
Qed.

Lemma C10_editor_without_uri_witness :
  yieldsNothing (editorStep Sample.editorNoDocument) /\
  (exists v, resolveActivePath Sample.editorNoDocument = Ok v) /\
  resolveActivePath Sample.editorNoDocument =
    resolveActivePath (withoutEditor Sample.editorNoDocument).
Proof.
  apply (C10_editor_without_uri Sample.editorNoDocument {| TextEditor.document := None |}).
  - reflexivity.
  - left. reflexivity.
Defined.

(** ** Further properties of the source: the resolver *)

Section TabSteps.

Variables (h : Host) (tab : Tab.t).
Hypothesis Htab : activeTabOf h = Some tab.
Hypothesis Hin : truthy (Tab.input tab) = true.

(** How the tab block ends, step by step. *)
Lemma tabBlock_yields_cases (v : JsVal) :
  tabBlock h = Ok (Some v) ->
  yields (probeDirectUri (Tab.input tab)) v \/
  yields (probeResourceUri (Tab.input tab)) v \/
  yields (probeOptionsUri (Tab.input tab)) v \/
  yields (labelHeuristic tab) v.
Proof.
  rewrite (tabBlock_unfold h tab Htab Hin). unfold yields.
  destruct (probeDirectUri (Tab.input tab)) as [[v1|]|e1]; simpl; auto; try discriminate.
  destruct (probeResourceUri (Tab.input tab)) as [[v2|]|e2]; simpl; auto; try discriminate.
  destruct (probeOptionsUri (Tab.input tab)) as [[v3|]|e3]; simpl; auto; discriminate.
Qed.

End TabSteps.

Lemma tabBlock_yields_tab (h : Host) (v : JsVal) :
  tabBlock h = Ok (Some v) ->
  exists tab, activeTabOf h = Some tab /\ truthy (Tab.input tab) = true.
Proof.
  intros H. destruct (activeTabOf h) as [tab|] eqn:E.
  - destruct (truthy (Tab.input tab)) eqn:T; [eauto|].
    rewrite (tabBlock_no_input h tab E T) in H. discriminate.
  - rewrite (tabBlock_no_tab h E) in H. discriminate.
Qed.

(** Where the value of [resolveActivePath] comes from. *)
Lemma resolve_origin (h : Host) (v : JsVal) :
  resolveActivePath h = Ok v ->
  yields (editorStep h) v \/
  (exists tab, activeTabOf h = Some tab /\
     (yields (probeDirectUri (Tab.input tab)) v \/
      yields (probeResourceUri (Tab.input tab)) v \/
      yields (probeOptionsUri (Tab.input tab)) v \/
      yields (labelHeuristic tab) v)) \/
  getFolder h = Ok v.
Proof.
  intros H.
  destruct (editorStep_cases h) as [He|[s He]].
  - destruct (tabBlock h) as [[x|]|e] eqn:Eb.
    + rewrite (resolve_tab h x He Eb) in H. injection H as ->.
      destruct (tabBlock_yields_tab h v Eb) as (tab & Htab & Hin).
      right. left. exists tab. split; [exact Htab|].
      exact (tabBlock_yields_cases h tab Htab Hin v Eb).
    + rewrite resolve_fallback in H; [|exact He|rewrite Eb; discriminate]. auto.
    + rewrite resolve_fallback in H; [|exact He|rewrite Eb; discriminate]. auto.
  - rewrite (resolve_editor h _ He) in H. injection H as <-. left. exact He.
Qed.

(** X1. Whatever [resolveActivePath] returns is a string, except when it
    comes from the options probe, the only step that tests its value for
    truthiness instead of [typeof === 'string']: then it is some truthy
    value that is not a string. *)
Theorem resolveActivePath_result_kind (h : Host) (v : JsVal) :
  resolveActivePath h = Ok v ->
  isString v = true \/
  (isString v = false /\ truthy v = true /\
   exists tab, activeTabOf h = Some tab /\ yields (probeOptionsUri (Tab.input tab)) v).
Proof.
  intros H.
  destruct (resolve_origin h v H) as [He|[(tab & Htab & [Hy|[Hy|[Hy|Hy]]])|Hf]].
  - destruct (editorStep_cases h) as [E|[s E]]; unfold yields in He; rewrite E in He.
    + discriminate.
    + injection He as <-. now left.
  - apply probeDirectUri_yields in Hy as (u & s & _ & _ & _ & ->). now left.
  - apply probeResourceUri_yields in Hy as (r & u & s & _ & _ & _ & _ & _ & ->).
    now left.
  - destruct (isString v) eqn:Es; [now left|]. right.
    pose proof Hy as Hy'.
    apply probeOptionsUri_yields in Hy' as (o & u & _ & _ & _ & _ & _ & Tv).
    eauto.
  - apply labelHeuristic_yields in Hy as (lbl & _ & _ & ->). now left.
  - destruct (getFolder_total h) as [s Hs]. rewrite Hs in Hf. injection Hf as <-. now left.
Qed.

Lemma resolveActivePath_result_kind_witness :
  isString (JNum 42) = true \/
  (isString (JNum 42) = false /\ truthy (JNum 42) = true /\
   exists tab, activeTabOf Sample2.numericOptions = Some tab /\
               yields (probeOptionsUri (Tab.input tab)) (JNum 42)).
Proof.
  apply (resolveActivePath_result_kind Sample2.numericOptions (JNum 42)).
  reflexivity.
Defined.

(** X2. The [content || ''] of [tryWrite] never replaces what the two
    resolvers hand to it: neither returns [undefined], [null] or another
    falsy value, apart from the empty string, which stays the empty string. *)
Theorem resolved_content_written_as_is (h : Host) (v : JsVal) :
  resolveActivePath h = Ok v \/ getFolder h = Ok v ->
  orElse v (JStr "") = v.
Proof.
  assert (Hfolder : getFolder h = Ok v -> orElse v (JStr "") = v).
  { intros H. destruct (getFolder_total h) as [s Hs]. rewrite Hs in H.
    injection H as <-. apply orElse_string. }
  intros [H|H]; [|now apply Hfolder].
  destruct (resolve_origin h v H) as [He|[(tab & Htab & [Hy|[Hy|[Hy|Hy]]])|Hf]].
  - destruct (editorStep_cases h) as [E|[s E]]; unfold yields in He; rewrite E in He.
    + discriminate.
    + injection He as <-. apply orElse_string.
  - apply probeDirectUri_yields in Hy as (u & s & _ & _ & _ & ->). apply orElse_string.
  - apply probeResourceUri_yields in Hy as (r & u & s & _ & _ & _ & _ & _ & ->).
    apply orElse_string.
  - apply probeOptionsUri_yields in Hy as (o & u & _ & _ & _ & _ & _ & Tv).
    unfold orElse. now rewrite Tv.
  - apply labelHeuristic_yields in Hy as (lbl & _ & _ & ->). apply orElse_string.
  - now apply Hfolder.
Qed.

Lemma resolved_content_written_as_is_witness :
  orElse (JStr "") (JStr "") = JStr "".
Proof.
  apply (resolved_content_written_as_is Sample.emptyDirect (JStr "")).
  left. reflexivity.
Defined.

(** Reading a member of a truthy value without throwing accessor gives a
    value of the same kind. *)
Lemma get_plain (v : JsVal) (k : string) :
  plain v = true -> truthy v = true ->
  exists x, get v k = Ok x /\ plain x = true.
Proof.
  intros Hp Ht. destruct v as [| | | | | | |ps]; simpl in Ht; try discriminate;
    try (exists JUndefined; split; reflexivity).
  simpl in Hp. unfold get.
  induction ps as [|[k' sl] ps IH]; simpl.
  - exists JUndefined. split; reflexivity.
  - simpl in Hp. apply andb_true_iff in Hp as [Hsl Hps].
    destruct (String.eqb k k').
    + destruct sl as [x|e]; [|discriminate]. exists x. split; [reflexivity|exact Hsl].
    + apply IH. exact Hps.
Qed.

Section PlainInput.

Variable input : JsVal.
Hypothesis Hplain : plain input = true.
Hypothesis Htruthy : truthy input = true.

Lemma probeDirectUri_plain : exists c, probeDirectUri input = Ok c.
Proof.
  rewrite probeDirectUri_reads.
  destruct (get_plain input "uri" Hplain Htruthy) as (u & -> & Pu).
  destruct (truthy u) eqn:Tu; [|eexists; reflexivity].
  destruct (get_plain u "fsPath" Pu Tu) as (p & -> & _).
  destruct (isString p); eexists; reflexivity.
Qed.

Lemma probeResourceUri_plain : exists c, probeResourceUri input = Ok c.
Proof.
  rewrite probeResourceUri_reads.
  destruct (get_plain input "resource" Hplain Htruthy) as (r & -> & Pr).
  destruct (truthy r) eqn:Tr; [|eexists; reflexivity].
  destruct (get_plain r "uri" Pr Tr) as (u & -> & Pu).
  destruct (truthy u) eqn:Tu; [|eexists; reflexivity].
  destruct (get_plain u "fsPath" Pu Tu) as (p & -> & _).
  destruct (isString p); eexists; reflexivity.
Qed.

Lemma probeOptionsUri_plain : exists c, probeOptionsUri input = Ok c.
Proof.
  rewrite probeOptionsUri_reads.
  destruct (get_plain input "options" Hplain Htruthy) as (o & -> & Po).
  destruct (truthy o) eqn:To; [|eexists; reflexivity].
  destruct (get_plain o "uri" Po To) as (u & -> & Pu).
  destruct (truthy u) eqn:Tu; [|eexists; reflexivity].
  destruct (get_plain u "fsPath" Pu Tu) as (p & -> & _).
  destruct (truthy p); eexists; reflexivity.
Qed.

End PlainInput.

(** X3. Every member read inside the [try] block is guarded by a
    truthiness test of the value it reads from, so the block cannot raise a
    TypeError of its own: when the tab input carries no accessor that
    throws, at any depth, the block completes normally and the [catch] is
    never entered. *)
Theorem tabBlock_plain_input_never_throws (h : Host) :
  (forall tab, activeTabOf h = Some tab -> plain (Tab.input tab) = true) ->
  exists c, tabBlock h = Ok c.
Proof.
  intros Hp. destruct (activeTabOf h) as [tab|] eqn:E.
  - destruct (truthy (Tab.input tab)) eqn:T.
    + rewrite (tabBlock_unfold h tab E T).
      destruct (probeDirectUri_plain _ (Hp tab eq_refl) T) as [[v1|] ->]; simpl; eauto.
      destruct (probeResourceUri_plain _ (Hp tab eq_refl) T) as [[v2|] ->]; simpl; eauto.
      destruct (probeOptionsUri_plain _ (Hp tab eq_refl) T) as [[v3|] ->]; simpl; eauto.
      destruct (labelHeuristic_cases tab) as [->|[lbl ->]]; eauto.
    + exists None. eapply tabBlock_no_input; eauto.
  - exists None. now apply tabBlock_no_tab.
Qed.

Lemma tabBlock_plain_input_never_throws_witness :
  exists c, tabBlock Sample.emptyDirect = Ok c.
Proof.
  apply (tabBlock_plain_input_never_throws Sample.emptyDirect).
  intros tab H. injection H as <-. reflexivity.
Defined.

(** X4. Without an active tab group, without an active tab, or with an
    active tab whose input is falsy ([undefined], [null], [false], [0],
    [NaN], the empty string), no tab step runs at all: with no path from
    the editor step the result is what [getFolder] returns, whatever the
    label of the tab is. *)
Theorem resolveActivePath_without_tab_input (h : Host) :
  yieldsNothing (editorStep h) ->
  activeTabOf h = None \/
  (exists tab, activeTabOf h = Some tab /\ truthy (Tab.input tab) = false) ->
  resolveActivePath h = getFolder h.
Proof.
  intros He Hno. apply resolve_fallback; [exact He|].
  destruct Hno as [Hn|(tab & Htab & Hin)].
  - rewrite (tabBlock_no_tab h Hn). discriminate.
  - rewrite (tabBlock_no_input h tab Htab Hin). discriminate.
Qed.

Lemma resolveActivePath_without_tab_input_witness :
  resolveActivePath Sample.labelOnly = getFolder Sample.labelOnly.
Proof.
  apply (resolveActivePath_without_tab_input Sample.labelOnly); [reflexivity|].
  right. eexists. split; reflexivity.
Defined.

(** X5. The label is returned only when it looks like a path: with no path
    from the editor step and an input that all three probes pass over, a
    label that is not a string, or a string with neither ['/'] nor ['\']
    among its characters (a bare file name), is not reported; the result is
    what [getFolder] returns. *)
Theorem resolveActivePath_label_without_separator (h : Host) (tab : Tab.t) :
  yieldsNothing (editorStep h) ->
  activeTabOf h = Some tab ->
  truthy (Tab.input tab) = true ->
  yieldsNothing (probeDirectUri (Tab.input tab)) ->
  yieldsNothing (probeResourceUri (Tab.input tab)) ->
  yieldsNothing (probeOptionsUri (Tab.input tab)) ->
  isString (Tab.label tab) = false \/
  (exists lbl, Tab.label tab = JStr lbl /\ ~ hasChar "/" lbl /\ ~ hasChar "\" lbl) ->
  resolveActivePath h = getFolder h.
Proof.
  intros He Htab Hin H1 H2 H3 Hl.
  apply resolve_fallback; [exact He|].
  rewrite (tabBlock_unfold h tab Htab Hin), H1, H2, H3. simpl.
  intros v Hv. apply labelHeuristic_yields in Hv as (lbl & Hlbl & Hsep & _).
  destruct Hl as [Hns|(lbl' & Hlbl' & Hs & Hb)].
  - rewrite Hlbl in Hns. discriminate.
  - rewrite Hlbl in Hlbl'. injection Hlbl' as <-.
    destruct Hsep as [Hsep|Hsep]; apply includes_char in Hsep; contradiction.
Qed.

Lemma resolveActivePath_label_without_separator_witness :
  resolveActivePath Sample2.bareLabel = getFolder Sample2.bareLabel.
Proof.
  apply (resolveActivePath_label_without_separator Sample2.bareLabel
           {| Tab.input := Sample.webviewInput; Tab.label := JStr "readme.md" |});
    try reflexivity.
  right. exists "readme.md". split; [reflexivity|].
  split; unfold hasChar; simpl; intuition discriminate.
Defined.

(** ** Further properties of the source: writes and sessions *)

Section StoreMore.

Lemma store_lookup_eq (d : string) (o : option string) (m : gmap string string) :
  store d o m !! d = match o with Some s => Some s | None => m !! d end.
Proof. destruct o; simpl; [apply lookup_insert_eq|reflexivity]. Qed.

Lemma store_is_Some (d p : string) (o : option string) (m : gmap string string) :
  is_Some (m !! p) -> is_Some (store d o m !! p).
Proof.
  intros H. destruct (decide (p = d)) as [->|Hne].
  - rewrite store_lookup_eq. destruct o; eauto.
  - now rewrite store_lookup_ne.
Qed.

Lemma store_same (d : string) (o : option string) (m : gmap string string) :
  store d o (store d o m) = store d o m.
Proof. destruct o; simpl; [apply insert_insert_eq|reflexivity]. Qed.

Lemma store_swap (d1 d2 : string) (o1 o2 : option string) (m : gmap string string) :
  d1 <> d2 -> store d1 o1 (store d2 o2 m) = store d2 o2 (store d1 o1 m).
Proof.
  intros H. destruct o1, o2; simpl; try reflexivity. now apply insert_insert_ne.
Qed.

End StoreMore.

(** X6. Every callback that writes the active-folder file stores what
    [getFolder] returns whenever that write is accepted, whatever happened
    to the write of the active-path file before it: a refused first write
    does not stop the second one. *)
Theorem folder_write_independent (ev : Event) (w : World) :
  writesActiveFolder ev = true ->
  folderPath ∉ denied (fs w) ->
  exists s w', getFolder (host w) = Ok (JStr s) /\
               callback ev w = Ok w' /\
               readFile (fs w') folderPath = Some s.
Proof.
  intros Hev Hok.
  destruct (callback_effect ev w) as (v & s & w' & _ & Hs & Hcb & _ & _ & _ & Hf & _).
  exists s, w'. split; [exact Hs|]. split; [exact Hcb|].
  unfold readFile. rewrite Hf, Hev, store_lookup_eq.
  now rewrite (leftover_string folderPath s (fs w) Hok).
Qed.

Lemma folder_write_independent_witness :
  exists s w', getFolder Sample.twoFolders = Ok (JStr s) /\
               callback TabsChanged (Sample2.lockedWorld Sample.twoFolders) = Ok w' /\
               readFile (fs w') folderPath = Some s.
Proof.
  apply (folder_write_independent TabsChanged (Sample2.lockedWorld Sample.twoFolders)).
  - reflexivity.
  - simpl. intros H. apply elem_of_singleton in H. discriminate H.
Defined.

(** X7. [tryWrite] overwrites: after two accepted writes to the same
    destination the files are what the second write alone would have left,
    nothing of the first content remains and nothing is logged. *)
Theorem tryWrite_last_write_wins (dest a b : string) (w : World) :
  dest ∉ denied (fs w) ->
  exists w1 w2,
    tryWrite dest (JStr a) w = Ok w1 /\
    tryWrite dest (JStr b) w1 = Ok w2 /\
    files (fs w2) = <[dest := b]> (files (fs w)) /\
    console w2 = console w.
Proof.
  intros Hok. eexists. eexists.
  split; [now apply tryWrite_accepted|].
  split; [now apply tryWrite_accepted|].
  simpl. split; [apply insert_insert_eq|reflexivity].
Qed.

Lemma tryWrite_last_write_wins_witness :
  exists w1 w2,
    tryWrite folderPath (JStr "/proj/a") (Sample2.lockedWorld Sample.twoFolders) = Ok w1 /\
    tryWrite folderPath (JStr "~") w1 = Ok w2 /\
    files (fs w2) = <[folderPath := "~"]> (files Sample2.editorFileLocked) /\
    console w2 = [].
Proof.
  apply (tryWrite_last_write_wins folderPath "/proj/a" "~"
           (Sample2.lockedWorld Sample.twoFolders)).
  simpl. intros H. apply elem_of_singleton in H. discriminate H.
Defined.

(** X8. Once [activate] has made its initial write, any signal raised in
    the same host state leaves both files as they are: each callback
    recomputes a value that is already stored. *)
Theorem signal_after_activate_keeps_files (ev : Event) (w : World) :
  exists w1 w2,
    activate w = Ok w1 /\
    callback ev w1 = Ok w2 /\
    files (fs w2) = files (fs w1).
Proof.
  destruct (callback_effect TabsChanged w)
    as (v & s & w1 & Hv & Hs & H1 & Hh1 & Hd1 & Hp1 & Hf1 & _).
  destruct (callback_effect ev w1)
    as (v' & s' & w2 & Hv' & Hs' & H2 & _ & _ & _ & Hf2 & _).
  rewrite Hh1 in Hv', Hs'.
  assert (v' = v) as -> by congruence.
  assert (s' = s) as -> by congruence.
  exists w1, w2. split; [exact H1|]. split; [exact H2|].
  rewrite Hf2, Hf1. simpl.
  rewrite !(leftover_faults _ _ (fs w1) (fs w) Hd1 Hp1).
  pose proof editorPath_folderPath as Hne.
  destruct ev; simpl.
  - rewrite (store_swap editorPath folderPath) by exact Hne. now rewrite store_same.
  - now apply store_twice.
  - now apply store_twice.
  - now rewrite store_same.
  - now rewrite store_same.
Qed.

Section Sessions.

Lemma run_app (s1 s2 : list (Host * Event)) (w : World) :
  run (s1 ++ s2) w = (w1 <- run s1 w ;; run s2 w1).
Proof.
  revert w. induction s1 as [|[h ev] s1 IH]; intros w; simpl; [reflexivity|].
  destruct (callback ev (setHost w h)) as [w1|e]; simpl; [apply IH|reflexivity].
Qed.

Lemma afterSignal_faults (d : string) (wr : Event -> bool) (val : Host -> Res JsVal)
    (f f' : FileSystem) (h : Host) (ev : Event) (b : option string) :
  denied f = denied f' -> partial f = partial f' ->
  afterSignal d wr val f h ev b = afterSignal d wr val f' h ev b.
Proof.
  intros H1 H2. unfold afterSignal. destruct (wr ev); [|reflexivity].
  destruct (val h) as [v|e]; [|reflexivity].
  now rewrite (leftover_faults d v f f' H1 H2).
Qed.

Lemma latest_faults (d : string) (wr : Event -> bool) (val : Host -> Res JsVal)
    (f f' : FileSystem) (steps : list (Host * Event)) (b : option string) :
  denied f = denied f' -> partial f = partial f' ->
  latest d wr val f steps b = latest d wr val f' steps b.
Proof.
  intros H1 H2. revert b.
  induction steps as [|[h ev] rest IH]; intros b; simpl; [reflexivity|].
  rewrite (afterSignal_faults d wr val f f' h ev b H1 H2). apply IH.
Qed.

(** One signal, in the vocabulary of sessions. *)
Lemma signal_effect (h : Host) (ev : Event) (w : World) :
  exists w1,
    callback ev (setHost w h) = Ok w1 /\
    host w1 = h /\
    denied (fs w1) = denied (fs w) /\
    partial (fs w1) = partial (fs w) /\
    readFile (fs w1) editorPath =
      afterSignal editorPath writesActivePath resolveActivePath (fs w) h ev
        (readFile (fs w) editorPath) /\
    readFile (fs w1) folderPath =
      afterSignal folderPath writesActiveFolder getFolder (fs w) h ev
        (readFile (fs w) folderPath) /\
    (forall p, p <> editorPath -> p <> folderPath ->
       readFile (fs w1) p = readFile (fs w) p) /\
    (forall p, is_Some (readFile (fs w) p) -> is_Some (readFile (fs w1) p)) /\
    exists entries, console w1 = (console w ++ entries)%list /\
                    Forall isWriteFailure entries.
Proof.
  destruct (callback_effect ev (setHost w h))
    as (v & s & w1 & Hv & Hs & Hcb & Hh & Hd & Hp & Hf & en & Hc & _ & HF).
  simpl in Hv, Hs, Hh, Hd, Hp, Hf, Hc.
  pose proof editorPath_folderPath as Hne.
  exists w1. split; [exact Hcb|]. split; [exact Hh|]. split; [exact Hd|].
  split; [exact Hp|].
  unfold readFile, afterSignal. rewrite Hf, Hv, Hs.
  split; [|split; [|split; [|split]]].
  - rewrite store_lookup_ne by exact Hne. rewrite store_lookup_eq.
    destruct (writesActivePath ev); [|reflexivity].
    now destruct (leftover editorPath v (fs w)).
  - rewrite store_lookup_eq.
    destruct (writesActiveFolder ev).
    + destruct (leftover folderPath (JStr s) (fs w)); [reflexivity|].
      apply store_lookup_ne. congruence.
    + apply store_lookup_ne. congruence.
  - intros p Hp1 Hp2. now rewrite !store_lookup_ne.
  - intros p Hsome. now apply store_is_Some, store_is_Some.
  - exists en. auto.
Qed.

(** A session returns and leaves the faults of the file system alone. *)
Lemma run_faults (steps : list (Host * Event)) (w : World) :
  exists w', run steps w = Ok w' /\
             denied (fs w') = denied (fs w) /\ partial (fs w') = partial (fs w).
Proof.
  revert w. induction steps as [|[h ev] rest IH]; intros w; simpl; [eauto|].
  destruct (signal_effect h ev w) as (w1 & Hcb & _ & Hd & Hp & _).
  destruct (IH w1) as (w' & Hrun & Hd' & Hp').
  exists w'. rewrite Hcb; simpl. split; [exact Hrun|]. split; congruence.
Qed.

End Sessions.

(** X9. A session never throws and keeps to its two files: whatever the
    host states and signals, every callback returns, no file other than the
    two destinations changes, no file that exists is removed, the set of
    refused paths is left alone and the console only grows, by
    write-failure entries. *)
Theorem session_invariant (steps : list (Host * Event)) (w : World) :
  exists w',
    run steps w = Ok w' /\
    host w' = lastHost steps (host w) /\
    denied (fs w') = denied (fs w) /\
    (forall p, p <> editorPath -> p <> folderPath ->
       readFile (fs w') p = readFile (fs w) p) /\
    (forall p, is_Some (readFile (fs w) p) -> is_Some (readFile (fs w') p)) /\
    exists entries, console w' = (console w ++ entries)%list /\
                    Forall isWriteFailure entries.
Proof.
  revert w. induction steps as [|[h ev] rest IH]; intros w; simpl.
  - exists w. repeat split; auto. exists []. rewrite app_nil_r. split; [reflexivity|constructor].
  - destruct (signal_effect h ev w)
      as (w1 & Hcb & Hh & Hd & _ & _ & _ & Hfr & Hex & en1 & Hc1 & HF1).
    destruct (IH w1) as (w' & Hrun & Hh' & Hd' & Hfr' & Hex' & en2 & Hc2 & HF2).
    exists w'. rewrite Hcb; simpl.
    split; [exact Hrun|]. split; [now rewrite Hh', Hh|]. split; [congruence|].
    split; [|split].
    + intros p Hp1 Hp2. rewrite Hfr' by assumption. now apply Hfr.
    + intros p Hp. apply Hex', Hex, Hp.
    + exists (en1 ++ en2)%list. split.
      * rewrite Hc2, Hc1. now rewrite app_assoc.
      * apply Forall_app. auto.
Qed.

Lemma session_invariant_witness :
  exists w', run Sample2.browsing (Sample2.lockedWorld Sample.labelOnly) = Ok w' /\
             readFile (fs w') "/tmp/notes.txt" = Some "keep".
Proof.
  destruct (session_invariant Sample2.browsing (Sample2.lockedWorld Sample.labelOnly))
    as (w' & Hrun & _ & _ & Hfr & _).
  exists w'. split; [exact Hrun|].
  rewrite Hfr; [reflexivity|discriminate|discriminate].
Defined.

(** X10. After a session each of the two files holds what the most recent
    write to it left there: the value computed by the callback when the
    write was accepted, the part of that value written so far (possibly
    nothing) when the write failed after the file was opened; a write that
    fails before that, like a signal that does not write the file, carries
    the previous content over.  The content of one file does not depend on
    the writes to the other, and no history is kept. *)
Theorem session_files_latest (steps : list (Host * Event)) (w : World) :
  exists w',
    run steps w = Ok w' /\
    readFile (fs w') editorPath =
      latest editorPath writesActivePath resolveActivePath (fs w) steps
        (readFile (fs w) editorPath) /\
    readFile (fs w') folderPath =
      latest folderPath writesActiveFolder getFolder (fs w) steps
        (readFile (fs w) folderPath).
Proof.
  revert w. induction steps as [|[h ev] rest IH]; intros w; simpl.
  - exists w. auto.
  - destruct (signal_effect h ev w) as (w1 & Hcb & _ & Hd & Hp & HA & HF & _).
    destruct (IH w1) as (w' & Hrun & HA' & HF').
    exists w'. rewrite Hcb; simpl. split; [exact Hrun|].
    rewrite HA', HF', HA, HF.
    rewrite (latest_faults editorPath _ _ (fs w1) (fs w) _ _ Hd Hp).
    rewrite (latest_faults folderPath _ _ (fs w1) (fs w) _ _ Hd Hp).
    split; reflexivity.
Qed.

(** X11. Whatever happened earlier in a session, after a signal whose
    callback writes the active-path file that file holds the path resolved
    in the host state of that signal, provided the path is a string and the
    file system accepts writes to the file. *)
Theorem session_last_signal_decides (steps : list (Host * Event)) (h : Host) (ev : Event)
    (s : string) (w : World) :
  writesActivePath ev = true ->
  resolveActivePath h = Ok (JStr s) ->
  editorPath ∉ denied (fs w) ->
  exists w', run (steps ++ [(h, ev)]) w = Ok w' /\
             readFile (fs w') editorPath = Some s.
Proof.
  intros Hev Hres Hok.
  destruct (run_faults steps w) as (w1 & Hrun & Hd & _).
  destruct (callback_stores_active_path ev (setHost w1 h) s Hev Hres) as (w' & Hcb & Hr).
  { simpl. now rewrite Hd. }
  exists w'. rewrite run_app, Hrun. simpl. rewrite Hcb. auto.
Qed.

Lemma session_last_signal_decides_witness :
  exists w', run (Sample2.browsing ++ [(Sample.labelledWebview, TabGroupsChanged)])
               (Sample.world Sample.labelOnly) = Ok w' /\
             readFile (fs w') editorPath = Some "folder/readme.md".
Proof.
  apply (session_last_signal_decides Sample2.browsing Sample.labelledWebview
           TabGroupsChanged "folder/readme.md" (Sample.world Sample.labelOnly));
    try reflexivity.
  simpl. apply not_elem_of_empty.
Defined.

(** X12. The initial write of [activate]: when the file system accepts
    both writes and the resolved path is a string, both files exist
    afterwards, whether or not they existed before, holding the resolved
    path and the folder; no other file changes and nothing is logged. *)
Theorem activate_initial_write (w : World) (s : string) :
  resolveActivePath (host w) = Ok (JStr s) ->
  editorPath ∉ denied (fs w) ->
  folderPath ∉ denied (fs w) ->
  exists f w',
    getFolder (host w) = Ok (JStr f) /\
    activate w = Ok w' /\
    readFile (fs w') editorPath = Some s /\
    readFile (fs w') folderPath = Some f /\
    (forall p, p <> editorPath -> p <> folderPath ->
       readFile (fs w') p = readFile (fs w) p) /\
    console w' = console w.
Proof.
  intros Hres HokA HokF.
  destruct (callback_effect TabsChanged w)
    as (v & f & w' & Hv & Hf & Hcb & _ & _ & _ & Hfiles & en & Hc & Hl & _).
  rewrite Hres in Hv. injection Hv as <-.
  simpl in Hfiles.
  rewrite (leftover_string editorPath s (fs w) HokA) in Hfiles.
  rewrite (leftover_string folderPath f (fs w) HokF) in Hfiles.
  pose proof editorPath_folderPath as Hne.
  exists f, w'. split; [exact Hf|]. split; [exact Hcb|].
  unfold readFile. rewrite Hfiles. simpl.
  split; [|split; [|split]].
  - rewrite lookup_insert_ne by congruence. apply lookup_insert_eq.
  - apply lookup_insert_eq.
  - intros p Hp1 Hp2. rewrite !lookup_insert_ne by congruence. reflexivity.
  - unfold failedWrites in Hl. simpl in Hl.
    rewrite Hres, Hf in Hl.
    rewrite (writeRefused_string editorPath s (fs w) HokA) in Hl.
    rewrite (writeRefused_string folderPath f (fs w) HokF) in Hl.
    destruct en; [|discriminate Hl]. now rewrite app_nil_r in Hc.
Qed.

Lemma activate_initial_write_witness :
  exists f w',
    getFolder Sample.twoFolders = Ok (JStr f) /\
    activate (Sample.world Sample.twoFolders) = Ok w' /\
    readFile (fs w') editorPath = Some "/proj/a" /\
    readFile (fs w') folderPath = Some f /\
    (forall p, p <> editorPath -> p <> folderPath ->
       readFile (fs w') p = readFile (fs (Sample.world Sample.twoFolders)) p) /\
    console w' = [].
Proof.
  apply (activate_initial_write (Sample.world Sample.twoFolders) "/proj/a").
  - reflexivity.
  - simpl. apply not_elem_of_empty.
  - simpl. apply not_elem_of_empty.
Defined.
